(** * ollama-ocr: the Streamlit LaTeX OCR & Solver script (init.py)

    A shallow embedding of [init.py].  One execution of the script
    (Streamlit re-runs [main] after every widget interaction) is a
    computation in a state-and-exception monad over a [World] made of
    - [st.session_state], a dictionary from attribute names to values,
    - the requests handed to [ollama.chat], in order,
    - the elements rendered through [st.*].
    The widget values of the run and the behaviour of the model backend
    are the run's environment [Env]. *)

From Stdlib Require Import String Ascii List Bool Arith Lia.
From stdpp Require Import gmap strings list fin_maps.

Local Open Scope string_scope.

(** ** Python's [str.replace]

    Strings are sequences of bytes ([Ascii.ascii]); both delimiter tokens
    are ASCII, so replacing on the UTF-8 bytes agrees with replacing on
    code points. *)

(** [old] empty: [new] is inserted before every character and at the end. *)
Fixpoint interleave (new s : string) : string :=
  match s with
  | EmptyString => new
  | String c tl => new +:+ String c (interleave new tl)
  end.

(** Left-to-right scan for non-overlapping occurrences of a non-empty
    [old]; [skip] counts the characters of the occurrence just matched
    that are still to be dropped. *)
Fixpoint replace_from (old new : string) (skip : nat) (s : string) : string :=
  match s with
  | EmptyString => EmptyString
  | String c tl =>
      match skip with
      | S k => replace_from old new k tl
      | O =>
          if String.prefix old s
          then new +:+ replace_from old new (String.length old - 1) tl
          else String c (replace_from old new 0 tl)
      end
  end.

Definition str_replace (old new s : string) : string :=
  match old with
  | EmptyString => interleave new s
  | _ => replace_from old new 0 s
  end.

(** Line 132: [ocr_result.replace(r"\[", "").replace(r"\]", "")], the
    string handed to [st.latex] (the specification's sanitizeForDisplay). *)
Definition cleaned_latex (ocr_result : string) : string :=
  str_replace "\]" "" (str_replace "\[" "" ocr_result).

(** The scan specialised to a two-character token and an empty
    replacement, by structural recursion. *)
Fixpoint remove2 (a b : ascii) (s : string) : string :=
  match s with
  | String c1 ((String c2 rest) as tl) =>
      if Ascii.eqb c1 a && Ascii.eqb c2 b
      then remove2 a b rest
      else String c1 (remove2 a b tl)
  | _ => s
  end.

(** [DelTok tok s r]: [r] is [s] with some occurrences of [tok] deleted and
    every other character kept, unchanged and in order. *)
Inductive DelTok (tok : string) : string -> string -> Prop :=
  | DelTok_nil : DelTok tok "" ""
  | DelTok_keep c s r : DelTok tok s r -> DelTok tok (String c s) (String c r)
  | DelTok_drop s r : DelTok tok s r -> DelTok tok (tok +:+ s) r.

(** [follows_ok a F s]: no occurrence of [a] in [s] is immediately
    followed by a character of [F]. *)
Fixpoint follows_ok (a : ascii) (F : ascii -> bool) (s : string) : bool :=
  match s with
  | String c1 ((String c2 _) as tl) =>
      (if Ascii.eqb c1 a then negb (F c2) else true) && follows_ok a F tl
  | _ => true
  end.

Definition backslash : ascii := "\"%char.

(** No two adjacent backslashes. *)
Definition no_double_backslash (s : string) : bool :=
  follows_ok backslash (Ascii.eqb backslash) s.

(** [s] contains [tok] as a substring. *)
Fixpoint contains_tok (tok s : string) : bool :=
  String.prefix tok s ||
  match s with
  | EmptyString => false
  | String _ tl => contains_tok tok tl
  end.

(** ** Values, requests and the world of a script run *)

Definition bytes := list Byte.byte.

(** Constants (lines 8-19). *)
Definition ACCEPTED_FORMATS : list string := ["png"; "jpg"; "jpeg"].
Definition VISION_MODEL : string := "llama3.2-vision".
Definition MATH_MODEL : string := "qwen2-math:1.5b".

Definition PROMPT_TEMPLATE : string :=
"Extract and convert mathematical equations from the image provided into LaTeX code.
Rules you MUST follow:
1. Output raw LaTeX code only
2. No explanatory text
3. No dollar signs ($) or delimiters
4. No equation simplification
5. No LaTeX preamble or document structure
6. No symbol explanations".

(** One entry of the [messages] list given to [ollama.chat]. *)
Record Message := {
  role : string;
  content : string;
  images : option (list bytes)
}.

Record ModelRequest := {
  model : string;
  messages : list Message
}.

(** What evaluating [ollama.chat(...)['message']['content']] does: it
    yields the content string, or an [Exception] [e] is raised on the way
    (transport failure, unknown model, malformed response); [msg] is
    [str(e)]. *)
Inductive ChatOutcome :=
  | ChatContent (c : string)
  | ChatRaises (msg : string).

(** A reply the script treats as no result: a failure or empty content. *)
Definition falsy_reply (o : ChatOutcome) : bool :=
  match o with
  | ChatContent c => String.eqb c ""
  | ChatRaises _ => true
  end.

(** Exceptions a run can raise.  [RerunException] is Streamlit's control
    exception behind [st.experimental_rerun]; it derives from
    [BaseException], not from [Exception]. *)
Inductive Exn :=
  | RerunException
  | AttributeError (name : string)
  | ImageOpenError
  | ImageSaveError
  | ModelError (msg : string).

Definition exn_str (e : Exn) : string :=
  match e with
  | RerunException => ""
  | AttributeError name => "object has no attribute '" +:+ name +:+ "'"
  | ImageOpenError => "cannot identify image file"
  | ImageSaveError => "cannot write image as PNG"
  | ModelError msg => msg
  end.

(** [isinstance(e, Exception)]. *)
Definition is_Exception (e : Exn) : bool :=
  match e with
  | RerunException => false
  | _ => true
  end.

Inductive Result (A : Type) :=
  | Ret (a : A)
  | Raise (e : Exn).
Arguments Ret {A} a.
Arguments Raise {A} e.

(** The double-quote character, for string constants that contain it. *)
Definition dquote : string := String (ascii_of_nat 34) "".

(** The derived phase of the specification's WorkflowState. *)
Inductive Phase := Empty | ImageLoaded | Extracted | Solved.

Section App.

(** The image library (PIL), taken as given: the type of decoded
    images, [Image.open] on the uploaded bytes, [image.save(buf,
    format='PNG')] followed by [buf.getvalue()], and [str(image)].
    [None] stands for a raised exception. *)
Variable Image : Type.
Variable Image_open : bytes -> option Image.
Variable Image_save_png : Image -> option bytes.
Variable Image_repr : Image -> string.

(** The values stored in [st.session_state] or returned by the two
    inference functions ([Optional[str]]). *)
Inductive Value :=
  | VNone
  | VStr (s : string)
  | VImage (im : Image).

(** Python truthiness: [None] and the empty string are false; an image
    object is true. *)
Definition truthy (v : Value) : bool :=
  match v with
  | VNone => false
  | VStr s => negb (String.eqb s "")
  | VImage _ => true
  end.

(** What an f-string substitutes for [{v}]. *)
Definition py_str (v : Value) : string :=
  match v with
  | VNone => "None"
  | VStr s => s
  | VImage im => Image_repr im
  end.

(** Elements rendered through the [st] module. *)
Inductive UiEvent :=
  | UiPageConfig (page_title layout initial_sidebar_state : string)
  | UiTitle (s : string)
  | UiHeader (s : string)
  | UiMarkdown (s : string)
  | UiImage (v : Value) (caption : string)
  | UiError (s : string)
  | UiCode (v : Value) (language : string)
  | UiLatex (v : Value)
  | UiInfo (s : string).

Record World := {
  session : gmap string Value;
  calls : list ModelRequest;
  ui : list UiEvent
}.

(** The inputs of one run of the script: the values the widgets
    return, and how the model backend answers the [n]-th request made
    so far. *)
Record Env := {
  clear_clicked : bool;
  uploaded_file : option bytes;
  extract_clicked : bool;
  solve_clicked : bool;
  backend : nat -> ModelRequest -> ChatOutcome
}.

(** *** The monad *)

Definition M (A : Type) : Type := World -> Result A * World.

Definition ret {A} (a : A) : M A := fun w => (Ret a, w).

Definition raise {A} (e : Exn) : M A := fun w => (Raise e, w).

Definition bind {A B} (m : M A) (k : A -> M B) : M B :=
  fun w =>
    match m w with
    | (Ret a, w') => k a w'
    | (Raise e, w') => (Raise e, w')
    end.

Notation "x <- m ;; k" := (bind m (fun x => k))
  (at level 100, m at next level, right associativity).
Notation "m ;; k" := (bind m (fun _ => k))
  (at level 100, right associativity).

(** [try: body except Exception as e: handler(str(e))]. *)
Definition try_except {A} (body : M A) (handler : string -> M A) : M A :=
  fun w =>
    match body w with
    | (Ret a, w') => (Ret a, w')
    | (Raise e, w') =>
        if is_Exception e then handler (exn_str e) w' else (Raise e, w')
    end.

(** [name in st.session_state]. *)
Definition has_attr (name : string) : M bool :=
  fun w => (Ret (bool_decide (is_Some (session w !! name))), w).

(** [st.session_state.name]. *)
Definition get_attr (name : string) : M Value :=
  fun w =>
    match session w !! name with
    | Some v => (Ret v, w)
    | None => (Raise (AttributeError name), w)
    end.

(** [st.session_state.name = v]. *)
Definition set_attr (name : string) (v : Value) : M unit :=
  fun w =>
    (Ret tt, {| session := <[name := v]> (session w);
                calls := calls w; ui := ui w |}).

Definition emit (ev : UiEvent) : M unit :=
  fun w =>
    (Ret tt, {| session := session w; calls := calls w;
                ui := ui w ++ [ev] |}).

(** [ollama.chat(model=..., messages=[...])['message']['content']]. *)
Definition ollama_chat (env : Env) (req : ModelRequest) : M string :=
  fun w =>
    let w' := {| session := session w; calls := calls w ++ [req];
                 ui := ui w |} in
    match backend env (length (calls w)) req with
    | ChatContent c => (Ret c, w')
    | ChatRaises msg => (Raise (ModelError msg), w')
    end.

(** [image.save(img_byte_arr, format='PNG'); img_byte_arr.getvalue()]. *)
Definition save_png (v : Value) : M bytes :=
  match v with
  | VImage im =>
      match Image_save_png im with
      | Some png => ret png
      | None => raise ImageSaveError
      end
  | _ => raise (AttributeError "save")
  end.

(** *** The script *)

Definition init_session_state : M unit :=
  b1 <- has_attr "ocr_result" ;;
  (if negb b1 then set_attr "ocr_result" VNone else ret tt) ;;
  b2 <- has_attr "uploaded_image" ;;
  (if negb b2 then set_attr "uploaded_image" VNone else ret tt) ;;
  b3 <- has_attr "solution_result" ;;
  (if negb b3 then set_attr "solution_result" VNone else ret tt).

Definition setup_page : M unit :=
  emit (UiPageConfig "LaTeX OCR & Solver" "wide" "expanded") ;;
  emit (UiTitle "LaTeX OCR & Solver").

Definition create_clear_button (env : Env) : M unit :=
  if clear_clicked env then
    set_attr "ocr_result" VNone ;;
    set_attr "uploaded_image" VNone ;;
    set_attr "solution_result" VNone ;;
    raise RerunException
  else ret tt.

(** The keyword arguments of the call at lines 52-59; [image_file] is
    the [io.BytesIO] argument, given by its [getvalue()]. *)
Definition vision_request (image_file : bytes) : ModelRequest :=
  {| model := VISION_MODEL;
     messages := [ {| role := "user";
                      content := PROMPT_TEMPLATE;
                      images := Some [image_file] |} ] |}.

Definition process_image (env : Env) (image_file : bytes) : M Value :=
  try_except
    (c <- ollama_chat env (vision_request image_file) ;;
     ret (VStr c))
    (fun e => emit (UiError ("Error processing image: " +:+ e)) ;;
              ret VNone).

Definition solve_prompt (latex_code : Value) : string :=
  "Реши уравнение " +:+ py_str latex_code +:+ " и представь ответ в LaTeX.".

(** The keyword arguments of the call at lines 68-74. *)
Definition math_request (latex_code : Value) : ModelRequest :=
  {| model := MATH_MODEL;
     messages := [ {| role := "user";
                      content := solve_prompt latex_code;
                      images := None |} ] |}.

Definition solve_equation (env : Env) (latex_code : Value) : M Value :=
  try_except
    (c <- ollama_chat env (math_request latex_code) ;;
     ret (VStr c))
    (fun e => emit (UiError ("Error solving equation: " +:+ e)) ;;
              ret VNone).

(** Lines 99-101. *)
Definition upload_step (env : Env) : M unit :=
  match uploaded_file env with
  | Some f =>
      match Image_open f with
      | Some image => set_attr "uploaded_image" (VImage image)
      | None => raise ImageOpenError
      end
  | None => ret tt
  end.

(** Lines 106-117. *)
Definition extract_step (env : Env) : M unit :=
  if extract_clicked env then
    im <- get_attr "uploaded_image" ;;
    img_byte_arr <- save_png im ;;
    result <- process_image env img_byte_arr ;;
    if truthy result then
      set_attr "ocr_result" result ;;
      set_attr "solution_result" VNone
    else ret tt
  else ret tt.

(** Lines 119-123. *)
Definition solve_step (env : Env) : M unit :=
  ocr <- get_attr "ocr_result" ;;
  if truthy ocr && solve_clicked env then
    latex_code <- get_attr "ocr_result" ;;
    solution <- solve_equation env latex_code ;;
    if truthy solution then set_attr "solution_result" solution
    else ret tt
  else ret tt.

Definition sidebar_content (env : Env) : M unit :=
  emit (UiHeader "Upload Image") ;;
  emit (UiMarkdown "---") ;;
  emit (UiMarkdown "### How to use:") ;;
  emit (UiMarkdown "1. Take a screenshot using `Win + Shift + S`.") ;;
  emit (UiMarkdown "2. Save the screenshot as a file (e.g., `screenshot.png`).") ;;
  emit (UiMarkdown "3. Upload the file above.") ;;
  upload_step env ;;
  im <- get_attr "uploaded_image" ;;
  if truthy im then
    shown <- get_attr "uploaded_image" ;;
    emit (UiImage shown "Uploaded Image") ;;
    extract_step env ;;
    solve_step env
  else ret tt.

(** [s.replace(r"\[", "").replace(r"\]", "")] on a stored value. *)
Definition cleaned (v : Value) : M Value :=
  match v with
  | VStr s => ret (VStr (cleaned_latex s))
  | _ => raise (AttributeError "replace")
  end.

Definition display_results : M unit :=
  ocr <- get_attr "ocr_result" ;;
  if truthy ocr then
    emit (UiMarkdown "### LaTeX Code") ;;
    code <- get_attr "ocr_result" ;;
    emit (UiCode code "latex") ;;
    emit (UiMarkdown "### LaTeX Rendered") ;;
    stored <- get_attr "ocr_result" ;;
    cleaned_latex <- cleaned stored ;;
    emit (UiLatex cleaned_latex) ;;
    sol <- get_attr "solution_result" ;;
    if truthy sol then
      emit (UiMarkdown "### Solution") ;;
      sol1 <- get_attr "solution_result" ;;
      emit (UiCode sol1 "latex") ;;
      sol2 <- get_attr "solution_result" ;;
      emit (UiLatex sol2)
    else ret tt
  else
    emit (UiInfo "Upload an image and click 'Extract LaTeX code' to see the results.").

Definition main (env : Env) : M unit :=
  init_session_state ;;
  setup_page ;;
  create_clear_button env ;;
  emit (UiMarkdown ("<p style=" +:+ dquote +:+ "margin-top: -20px;" +:+ dquote
                    +:+ ">Extract LaTeX code from images and solve equations</p>")) ;;
  emit (UiMarkdown "---") ;;
  sidebar_content env ;;
  display_results ;;
  emit (UiMarkdown "---") ;;
  emit (UiMarkdown ("Vision model: " +:+ VISION_MODEL +:+ " | Math model: " +:+ MATH_MODEL)).

(** The same widget values with another backend behaviour. *)
Definition with_backend (env : Env)
    (answer : nat -> ModelRequest -> ChatOutcome) : Env :=
  {| clear_clicked := clear_clicked env;
     uploaded_file := uploaded_file env;
     extract_clicked := extract_clicked env;
     solve_clicked := solve_clicked env;
     backend := answer |}.

(** The session with attribute [name] set to [v], the logs untouched. *)
Definition assign (name : string) (v : Value) (w : World) : World :=
  {| session := <[name := v]> (session w); calls := calls w; ui := ui w |}.

(** The session after the three assignments of lines 44-46. *)
Definition cleared (ss : gmap string Value) : gmap string Value :=
  <["solution_result" := VNone]>
    (<["uploaded_image" := VNone]> (<["ocr_result" := VNone]> ss)).

(** *** Script runs and the workflow state *)

(** A fresh run: the session state persists between runs, the request
    log and the rendered page start empty. *)
Definition start (ss : gmap string Value) : World :=
  {| session := ss; calls := []; ui := [] |}.

(** The session state one run of the script leaves behind, whether the
    run finished or was stopped by an exception. *)
Definition run (env : Env) (ss : gmap string Value) : gmap string Value :=
  session (snd (main env (start ss))).

(** Session states reachable from a brand-new session (an empty
    [st.session_state]) by runs of the script under arbitrary widget
    values and backend behaviour. *)
Inductive reachable : gmap string Value -> Prop :=
  | reach_init : reachable ∅
  | reach_run env ss : reachable ss -> reachable (run env ss).

(** [v is not None]. *)
Definition not_None (v : Value) : bool :=
  match v with
  | VNone => false
  | _ => true
  end.

(** A field of the workflow state is set when the attribute holds a
    value other than [None]. *)
Definition is_set (name : string) (ss : gmap string Value) : bool :=
  match ss !! name with
  | Some v => not_None v
  | None => false
  end.

(** Modelled from the spec: the phase of the WorkflowState, which the
    source does not store; section 3 derives it from the three fields. *)
Definition phase_of (ss : gmap string Value) : Phase :=
  if is_set "solution_result" ss then Solved
  else if is_set "ocr_result" ss then Extracted
  else if is_set "uploaded_image" ss then ImageLoaded
  else Empty.

(** solutionResult set => ocrResult set => uploadedImage set. *)
Definition ordered (ss : gmap string Value) : Prop :=
  (is_set "solution_result" ss = true -> is_set "ocr_result" ss = true) /\
  (is_set "ocr_result" ss = true -> is_set "uploaded_image" ss = true).

(** *** Weakest preconditions over the monad

    [wp m Q E w]: run from [w], [m] either returns [a] in a world
    satisfying [Q a], or raises in a world satisfying [E]. *)
Definition wp {A} (m : M A) (Q : A -> World -> Prop) (E : World -> Prop)
    (w : World) : Prop :=
  match m w with
  | (Ret a, w') => Q a w'
  | (Raise _, w') => E w'
  end.

(** [m] may log requests and render elements but leaves
    [st.session_state] as it found it, however it ends. *)
Definition keeps_session {A} (m : M A) : Prop :=
  forall w, session (snd (m w)) = session w.

(** Lines 23-24 on the dictionary: a missing attribute gets [None], an
    existing one is left alone. *)
Definition with_default (name : string) (ss : gmap string Value)
    : gmap string Value :=
  match ss !! name with
  | Some _ => ss
  | None => <[name := VNone]> ss
  end.

(** *** Shapes of the stored values *)

(** [None] or an image object. *)
Definition image_or_None (v : Value) : bool :=
  match v with
  | VStr _ => false
  | _ => true
  end.

(** [None] or a non-empty string. *)
Definition text_or_None (v : Value) : bool :=
  match v with
  | VNone => true
  | VStr s => negb (String.eqb s "")
  | VImage _ => false
  end.

(** The value of attribute [name], when there is one, has shape
    [shape]. *)
Definition attr_shape (shape : Value -> bool) (name : string)
    (ss : gmap string Value) : bool :=
  match ss !! name with
  | Some v => shape v
  | None => true
  end.

(** uploaded_image holds [None] or an image; ocr_result and
    solution_result hold [None] or a non-empty string. *)
Definition well_typed (ss : gmap string Value) : bool :=
  attr_shape image_or_None "uploaded_image" ss
  && attr_shape text_or_None "ocr_result" ss
  && attr_shape text_or_None "solution_result" ss.

(** The three attributes of the script. *)
Definition attributes : list string :=
  ["ocr_result"; "uploaded_image"; "solution_result"].

(** All three attributes exist. *)
Definition initialised (ss : gmap string Value) : bool :=
  forallb (fun name => bool_decide (is_Some (ss !! name))) attributes.

(** The exceptions that can end a run, and the widget values under
    which each can: the rerun requested by Clear, an upload the image
    library cannot open, and an image it cannot write as PNG when
    Extract is clicked. *)
Definition may_escape (env : Env) (e : Exn) : bool :=
  match e with
  | RerunException => clear_clicked env
  | ImageOpenError =>
      match uploaded_file env with
      | Some f => match Image_open f with Some _ => false | None => true end
      | None => false
      end
  | ImageSaveError => extract_clicked env
  | AttributeError _ | ModelError _ => false
  end.

(** [wp] with a postcondition that sees the exception raised. *)
Definition wpx {A} (m : M A) (Q : A -> World -> Prop)
    (E : Exn -> World -> Prop) (w : World) : Prop :=
  match m w with
  | (Ret a, w') => Q a w'
  | (Raise e, w') => E e w'
  end.

(** [m] appends to the request log a list of requests satisfying [P],
    however it ends. *)
Definition sends {A} (m : M A) (P : list ModelRequest -> Prop) : Prop :=
  forall w, exists rest, calls (snd (m w)) = (calls w ++ rest)%list /\ P rest.

(** At most one extraction request, and only if Extract is clicked. *)
Definition extraction_requests (env : Env) (rest : list ModelRequest) : Prop :=
  rest = [] \/
  (extract_clicked env = true /\ exists png, rest = [vision_request png]).

(** At most one solve request, and only if Solve is clicked. *)
Definition solve_requests (env : Env) (rest : list ModelRequest) : Prop :=
  rest = [] \/
  (solve_clicked env = true /\
   exists latex_code,
     truthy latex_code = true /\ rest = [math_request latex_code]).

End App.

Arguments VNone {Image}.
Arguments VStr {Image} s.
Arguments VImage {Image} im.
Arguments truthy {Image} v.
Arguments py_str {Image} Image_repr v.
Arguments UiPageConfig {Image} page_title layout initial_sidebar_state.
Arguments UiPageConfig {Image} page_title layout initial_sidebar_state.
Arguments UiTitle {Image} s.
Arguments UiHeader {Image} s.
Arguments UiMarkdown {Image} s.
Arguments UiImage {Image} v caption.
Arguments UiError {Image} s.
Arguments UiCode {Image} v language.
Arguments UiLatex {Image} v.
Arguments UiInfo {Image} s.
Arguments session {Image} w.
Arguments calls {Image} w.
Arguments ui {Image} w.
Arguments Build_World {Image} session calls ui.
Arguments ret {Image A} a w.
Arguments raise {Image A} e w.
Arguments bind {Image A B} m k w.
Arguments try_except {Image A} body handler w.
Arguments has_attr {Image} name w.
Arguments get_attr {Image} name w.
Arguments set_attr {Image} name v w.
Arguments emit {Image} ev w.
Arguments ollama_chat {Image} env req w.
Arguments save_png {Image} Image_save_png v w.
Arguments init_session_state {Image} w.
Arguments setup_page {Image} w.
Arguments create_clear_button {Image} env w.
Arguments process_image {Image} env image_file w.
Arguments solve_prompt {Image} Image_repr latex_code.
Arguments math_request {Image} Image_repr latex_code.
Arguments solve_equation {Image} Image_repr env latex_code w.
Arguments upload_step {Image} Image_open env w.
Arguments extract_step {Image} Image_save_png env w.
Arguments solve_step {Image} Image_repr env w.
Arguments sidebar_content {Image} Image_open Image_save_png Image_repr env w.
Arguments cleaned {Image} v w.
Arguments display_results {Image} w.
Arguments main {Image} Image_open Image_save_png Image_repr env w.
Arguments assign {Image} name v w.
Arguments cleared {Image} ss.
Arguments start {Image} ss.
Arguments run {Image} Image_open Image_save_png Image_repr env ss.
Arguments reachable {Image} Image_open Image_save_png Image_repr ss.
Arguments reach_init {Image} Image_open Image_save_png Image_repr.
Arguments reach_run {Image} Image_open Image_save_png Image_repr env ss.
Arguments not_None {Image} v.
Arguments is_set {Image} name ss.
Arguments phase_of {Image} ss.
Arguments ordered {Image} ss.
Arguments wp {Image A} m Q E w.
Arguments with_default {Image} name ss.
Arguments image_or_None {Image} v.
Arguments text_or_None {Image} v.
Arguments attr_shape {Image} shape name ss.
Arguments well_typed {Image} ss.
Arguments initialised {Image} ss.
Arguments may_escape {Image} Image_open env e.
Arguments wpx {Image A} m Q E w.
Arguments sends {Image A} m P.
Arguments solve_requests {Image} Image_repr env rest.
Arguments keeps_session {Image A} m.

(** ** A small concrete image library, to run the script on examples

    An image is a list of pixel values; a file is a one-byte format tag
    followed by the pixels; the PNG encoder always writes tag [x01]. *)
Module Toy.

Definition Image : Type := list Byte.byte.

Definition Image_open (f : bytes) : option Image :=
  match f with
  | Byte.x01 :: px => Some px
  | Byte.x02 :: px => Some px
  | _ => None
  end.

Definition Image_save_png (im : Image) : option bytes :=
  Some (Byte.x01 :: im).

Definition Image_repr (im : Image) : string := "<PIL.Image.Image>".

Definition jpg_file : bytes := [Byte.x02; Byte.x0a; Byte.x0b].
Definition other_file : bytes := [Byte.x02; Byte.x0c].

(** A backend that answers every vision request with [t] and every
    other request with [u]. *)
Definition answers (t u : ChatOutcome) (n : nat) (req : ModelRequest)
    : ChatOutcome :=
  if String.eqb (model req) VISION_MODEL then t else u.

Definition env0 (clear : bool) (file : option bytes) (extract solve : bool)
    (t u : ChatOutcome) : Env :=
  {| clear_clicked := clear; uploaded_file := file;
     extract_clicked := extract; solve_clicked := solve;
     backend := answers t u |}.

(** A session in the Solved phase. *)
Definition solved_session : gmap string (Value Image) :=
  <["solution_result" := VStr "x=1"]>
    (<["ocr_result" := VStr "x+1=2"]>
       (<["uploaded_image" := VImage [Byte.x0a; Byte.x0b]]> ∅)).

(** A session with an image loaded and nothing extracted. *)
Definition loaded_session : gmap string (Value Image) :=
  <["solution_result" := VNone]>
    (<["ocr_result" := VNone]>
       (<["uploaded_image" := VImage [Byte.x0a; Byte.x0b]]> ∅)).

(** Widget values and backends used in the examples. *)
Definition env_upload : Env :=
  env0 false (Some other_file) false false (ChatContent "") (ChatContent "").

Definition env_extract : Env :=
  env0 false (Some jpg_file) true false
       (ChatContent "x+1=2") (ChatContent "x=1").

Definition env_reextract : Env :=
  env0 false None true false (ChatContent "y=3") (ChatContent "x=1").

Definition env_solve : Env :=
  env0 false None false true (ChatContent "x+1=2") (ChatContent "x=1").

Definition env_failing : Env :=
  env0 false None true true
       (ChatRaises "connection refused") (ChatRaises "connection refused").

Definition env_empty : Env :=
  env0 false None true true (ChatContent "") (ChatContent "").

Definition env_clear : Env :=
  env0 true None false false (ChatContent "") (ChatContent "").

(** A session in the Extracted phase. *)
Definition extracted_session : gmap string (Value Image) :=
  <["solution_result" := VNone]>
    (<["ocr_result" := VStr "x+1=2"]>
       (<["uploaded_image" := VImage [Byte.x0a; Byte.x0b]]> ∅)).

End Toy.

(** ** The delimiter-stripping transform *)

Lemma string_ind2 (P : string -> Prop) :
  P "" ->
  (forall c, P (String c "")) ->
  (forall c1 c2 rest, P rest -> P (String c2 rest) ->
                      P (String c1 (String c2 rest))) ->
  forall s, P s.
Proof.
  intros H0 H1 H2 s.
  assert (Hboth : P s /\ forall c, P (String c s)).
  { induction s as [|c s [IHs IHcs]]; split; auto. }
  apply Hboth.
Qed.

Lemma prefix_two a b c1 c2 rest :
  String.prefix (String a (String b "")) (String c1 (String c2 rest))
  = Ascii.eqb c1 a && Ascii.eqb c2 b.
Proof.
  simpl.
  destruct (ascii_dec a c1) as [->|Hn1].
  - rewrite Ascii.eqb_refl. simpl.
    destruct (ascii_dec b c2) as [->|Hn2].
    + rewrite Ascii.eqb_refl. now destruct rest.
    + symmetry. apply Ascii.eqb_neq. congruence.
  - replace (Ascii.eqb c1 a) with false; [reflexivity|].
    symmetry. apply Ascii.eqb_neq. congruence.
Qed.

Lemma prefix_two_short a b c :
  String.prefix (String a (String b "")) (String c "") = false.
Proof. simpl. now destruct (ascii_dec a c). Qed.

(** On a two-character token and an empty replacement, Python's scan is
    the structural recursion [remove2]. *)
Lemma str_replace_remove2 a b s :
  str_replace (String a (String b "")) "" s = remove2 a b s.
Proof.
  unfold str_replace.
  induction s as [|c|c1 c2 rest IHrest IHtl] using string_ind2.
  - reflexivity.
  - cbn [replace_from]. rewrite prefix_two_short. reflexivity.
  - cbn [replace_from remove2]. rewrite prefix_two.
    destruct (Ascii.eqb c1 a && Ascii.eqb c2 b) eqn:E.
    + cbn [String.length Nat.sub]. cbn [replace_from] in *.
      simpl. exact IHrest.
    + f_equal. exact IHtl.
Qed.

Lemma cleaned_latex_remove2 s :
  cleaned_latex s = remove2 backslash "]" (remove2 backslash "[" s).
Proof.
  unfold cleaned_latex.
  change "\]" with (String backslash (String "]"%char "")).
  change "\[" with (String backslash (String "["%char "")).
  now rewrite !str_replace_remove2.
Qed.

Lemma remove2_DelTok a b s :
  DelTok (String a (String b "")) s (remove2 a b s).
Proof.
  induction s as [|c|c1 c2 rest IHrest IHtl] using string_ind2.
  - constructor.
  - simpl. repeat constructor.
  - cbn [remove2].
    destruct (Ascii.eqb c1 a && Ascii.eqb c2 b) eqn:E.
    + apply andb_true_iff in E as [E1 E2].
      apply Ascii.eqb_eq in E1, E2. subst.
      apply (DelTok_drop (String a (String b "")) rest). exact IHrest.
    + constructor. exact IHtl.
Qed.

Lemma remove2_cons2 a b c1 c2 rest :
  remove2 a b (String c1 (String c2 rest))
  = if Ascii.eqb c1 a && Ascii.eqb c2 b then remove2 a b rest
    else String c1 (remove2 a b (String c2 rest)).
Proof. reflexivity. Qed.

Lemma follows_ok_cons2 a F c1 c2 rest :
  follows_ok a F (String c1 (String c2 rest))
  = (if Ascii.eqb c1 a then negb (F c2) else true)
    && follows_ok a F (String c2 rest).
Proof. reflexivity. Qed.

(** A character other than the token's first one is copied. *)
Lemma remove2_head_ne a b c s :
  c <> a -> remove2 a b (String c s) = String c (remove2 a b s).
Proof.
  intros Hne. destruct s as [|c2 rest]; [reflexivity|].
  cbn [remove2].
  replace (Ascii.eqb c a) with false; [reflexivity|].
  symmetry. now apply Ascii.eqb_neq.
Qed.

Lemma follows_ok_tail a F c s :
  follows_ok a F (String c s) = true -> follows_ok a F s = true.
Proof.
  destruct s as [|c2 rest]; [reflexivity|].
  cbn [follows_ok]. intros H. now apply andb_true_iff in H as [_ H].
Qed.

(** When no [a] is followed by [b], there is no token to remove. *)
Lemma remove2_none a b (F : ascii -> bool) s :
  F b = true -> follows_ok a F s = true -> remove2 a b s = s.
Proof.
  intros HFb.
  induction s as [|c|c1 c2 rest IHrest IHtl] using string_ind2; auto.
  cbn [follows_ok remove2]. intros H. apply andb_true_iff in H as [H1 H2].
  destruct (Ascii.eqb c1 a) eqn:E1.
  - apply negb_true_iff in H1.
    destruct (Ascii.eqb c2 b) eqn:E2.
    + apply Ascii.eqb_eq in E2. subst. congruence.
    + simpl. f_equal. auto.
  - simpl. f_equal. auto.
Qed.

(** Removing the tokens [a b] from a string in which no [a] is followed
    by [a] or by a character of [F] leaves a string in which no [a] is
    followed by [a], by [b] or by a character of [F]. *)
Lemma remove2_follows_ok a b (F : ascii -> bool) s :
  F a = true ->
  follows_ok a F s = true ->
  follows_ok a (fun c => F c || Ascii.eqb c b) (remove2 a b s) = true.
Proof.
  intros HFa.
  induction s as [|c|c1 c2 rest IHrest IHtl] using string_ind2; auto.
  intros H. pose proof (follows_ok_tail _ _ _ _ H) as Htl.
  pose proof (follows_ok_tail _ _ _ _ Htl) as Hrest.
  rewrite remove2_cons2.
  destruct (Ascii.eqb c1 a && Ascii.eqb c2 b) eqn:E; [auto|].
  rewrite follows_ok_cons2 in H. apply andb_true_iff in H as [H1 _].
  destruct (Ascii.eqb c1 a) eqn:E1.
  - apply negb_true_iff in H1. simpl in E.
    assert (c2 <> a) by (intros ->; congruence).
    rewrite remove2_head_ne by assumption.
    rewrite follows_ok_cons2, E1.
    apply andb_true_iff. split.
    + rewrite H1, E. reflexivity.
    + rewrite <- (remove2_head_ne a b c2 rest) by assumption. auto.
  - specialize (IHtl Htl).
    destruct (remove2 a b (String c2 rest)) as [|d r] eqn:Er; [reflexivity|].
    rewrite follows_ok_cons2, E1. exact IHtl.
Qed.

Lemma remove2_length_le a b s :
  String.length (remove2 a b s) <= String.length s.
Proof.
  induction s as [|c|c1 c2 rest IHrest IHtl] using string_ind2; auto.
  rewrite remove2_cons2.
  destruct (Ascii.eqb c1 a && Ascii.eqb c2 b); simpl in *; lia.
Qed.

Lemma contains_tok_cons2 tok c s :
  contains_tok tok (String c s)
  = String.prefix tok (String c s) || contains_tok tok s.
Proof. reflexivity. Qed.

(** The scan removes at least the leftmost occurrence. *)
Lemma remove2_shorter a b s :
  contains_tok (String a (String b "")) s = true ->
  String.length (remove2 a b s) < String.length s.
Proof.
  induction s as [|c|c1 c2 rest IHrest IHtl] using string_ind2.
  - simpl. discriminate.
  - rewrite contains_tok_cons2, prefix_two_short. simpl. discriminate.
  - rewrite contains_tok_cons2, prefix_two, remove2_cons2.
    destruct (Ascii.eqb c1 a && Ascii.eqb c2 b).
    + intros _. pose proof (remove2_length_le a b rest). simpl. lia.
    + simpl orb. intros H. specialize (IHtl H). simpl in *. lia.
Qed.

Lemma remove2_absent a b s :
  contains_tok (String a (String b "")) s = false -> remove2 a b s = s.
Proof.
  induction s as [|c|c1 c2 rest IHrest IHtl] using string_ind2; auto.
  rewrite contains_tok_cons2, prefix_two, remove2_cons2.
  destruct (Ascii.eqb c1 a && Ascii.eqb c2 b).
  - simpl. discriminate.
  - simpl orb. intros H. f_equal. auto.
Qed.

Example str_replace_ex1 : str_replace "ab" "-" "xabababy" = "x---y".
Proof. reflexivity. Qed.

Example str_replace_ex2 : str_replace "aa" "b" "aaaaa" = "bba".
Proof. reflexivity. Qed.

Example str_replace_ex3 : str_replace "" "-" "ab" = "-a-b-".
Proof. reflexivity. Qed.

Example cleaned_latex_ex1 : cleaned_latex "\[ x+1=2 \]" = " x+1=2 ".
Proof. reflexivity. Qed.

Example cleaned_latex_ex2 : cleaned_latex "\\[[" = "\[".
Proof. reflexivity. Qed.

Example cleaned_latex_ex3 : cleaned_latex "\\[]" = "".
Proof. reflexivity. Qed.

(** C4 as stated fails: on the four characters backslash, backslash,
    open bracket, open bracket, the first pass deletes the token in the
    middle and thereby joins the outer two characters into a new token,
    which only a second application removes. *)
Lemma cleaned_latex_not_idempotent :
  cleaned_latex "\\[[" = "\[" /\
  cleaned_latex (cleaned_latex "\\[[") = "" /\
  cleaned_latex (cleaned_latex "\\[[") <> cleaned_latex "\\[[".
Proof. repeat split. discriminate. Qed.

(** C4, amended: one application first deletes occurrences of the token
    backslash open-bracket and then, from the result, occurrences of the
    token backslash close-bracket, every other character staying in
    place unchanged; a second application changes nothing exactly when
    the once-cleaned string contains neither token, which is the case
    for every input without two adjacent backslashes. *)
Theorem cleaned_latex_strips_tokens (s : string) :
  (exists mid, DelTok "\[" s mid /\ DelTok "\]" mid (cleaned_latex s)) /\
  (cleaned_latex (cleaned_latex s) = cleaned_latex s <->
   contains_tok "\[" (cleaned_latex s) = false /\
   contains_tok "\]" (cleaned_latex s) = false) /\
  (no_double_backslash s = true ->
   cleaned_latex (cleaned_latex s) = cleaned_latex s).
Proof.
  split; [|split].
  - exists (remove2 backslash "[" s). rewrite cleaned_latex_remove2.
    split; apply remove2_DelTok.
  - set (r := cleaned_latex s). rewrite (cleaned_latex_remove2 r).
    split.
    + intros Heq.
      destruct (contains_tok "\[" r) eqn:E1.
      { apply (remove2_shorter backslash "[") in E1.
        pose proof (remove2_length_le backslash "]" (remove2 backslash "[" r)).
        rewrite Heq in H. lia. }
      rewrite (remove2_absent backslash "[" r E1) in Heq.
      destruct (contains_tok "\]" r) eqn:E2; [|auto].
      apply (remove2_shorter backslash "]") in E2. rewrite Heq in E2. lia.
    + intros [E1 E2].
      rewrite (remove2_absent backslash "[" r E1).
      apply (remove2_absent backslash "]" r E2).
  - intros Hs. unfold no_double_backslash in Hs.
    rewrite (cleaned_latex_remove2 (cleaned_latex s)).
    rewrite (cleaned_latex_remove2 s).
    pose proof (remove2_follows_ok backslash "[" _ s
                  (Ascii.eqb_refl backslash) Hs) as H1.
    pose proof (remove2_follows_ok backslash "]" _ _
                  (eq_refl : Ascii.eqb backslash backslash
                             || Ascii.eqb backslash "[" = true) H1) as H2.
    set (r := remove2 backslash "]" (remove2 backslash "[" s)) in *.
    rewrite (remove2_none backslash "[" _ r eq_refl H2).
    exact (remove2_none backslash "]" _ r eq_refl H2).
Qed.

Lemma cleaned_latex_strips_tokens_witness :
  no_double_backslash "\[ x+1=2 \]" = true /\
  cleaned_latex (cleaned_latex "\[ x+1=2 \]") = cleaned_latex "\[ x+1=2 \]".
Proof.
  split; [reflexivity|].
  apply (proj2 (proj2 (cleaned_latex_strips_tokens "\[ x+1=2 \]"))).
  reflexivity.
Defined.

(** ** The script *)

Create HintDb keeps.
Create HintDb silent.

Section Properties.

Context {Image : Type}.
Variable Image_open : bytes -> option Image.
Variable Image_save_png : Image -> option bytes.
Variable Image_repr : Image -> string.

Implicit Types (w : World Image) (ss : gmap string (Value Image))
               (v : Value Image) (env : Env).

(** *** Rules of the monad *)

Lemma wp_bind {A B} (m : M Image A) (k : A -> M Image B) Q E w :
  wp m (fun a w' => wp (k a) Q E w') E w -> wp (bind m k) Q E w.
Proof. unfold wp, bind. now destruct (m w) as [[a|e] w']. Qed.

Lemma wp_conseq {A} (m : M Image A) (Q Q' : A -> World Image -> Prop)
    (E E' : World Image -> Prop) w :
  wp m Q E w ->
  (forall a w', Q a w' -> Q' a w') ->
  (forall w', E w' -> E' w') ->
  wp m Q' E' w.
Proof. unfold wp. destruct (m w) as [[a|e] w']; auto. Qed.

(** Symbolic execution of the primitive operations. *)
Lemma bind_ret {A B} (a : A) (k : A -> M Image B) w :
  bind (ret a) k w = k a w.
Proof. reflexivity. Qed.

Lemma bind_emit {B} ev (k : unit -> M Image B) w :
  bind (emit ev) k w
  = k tt {| session := session w; calls := calls w; ui := ui w ++ [ev] |}.
Proof. reflexivity. Qed.

Lemma bind_set_attr {B} name v (k : unit -> M Image B) w :
  bind (set_attr name v) k w = k tt (assign name v w).
Proof. reflexivity. Qed.

Lemma bind_get_attr {B} name v (k : Value Image -> M Image B) w :
  session w !! name = Some v -> bind (get_attr name) k w = k v w.
Proof. intros H. unfold bind, get_attr. now rewrite H. Qed.

Lemma bind_get_attr_None {B} name (k : Value Image -> M Image B) w :
  session w !! name = None ->
  bind (get_attr name) k w = (Raise (AttributeError name), w).
Proof. intros H. unfold bind, get_attr. now rewrite H. Qed.

Ltac run_step :=
  first
    [ rewrite bind_emit
    | rewrite bind_set_attr
    | rewrite bind_ret
    | erewrite bind_get_attr by (cbn [session assign]; eassumption) ];
  cbn [session calls ui assign].

Lemma keeps_session_bind {A B} (m : M Image A) (k : A -> M Image B) :
  keeps_session m -> (forall a, keeps_session (k a)) ->
  keeps_session (bind m k).
Proof.
  intros Hm Hk w. unfold bind. specialize (Hm w).
  destruct (m w) as [[a|e] w']; simpl in *; [|assumption].
  now rewrite Hk.
Qed.

Lemma keeps_session_try {A} (body : M Image A) handler :
  keeps_session body -> (forall e, keeps_session (handler e)) ->
  keeps_session (try_except body handler).
Proof.
  intros Hb Hh w. unfold try_except. specialize (Hb w).
  destruct (body w) as [[a|e] w']; simpl in *; [assumption|].
  destruct (is_Exception e); simpl; [|assumption].
  now rewrite Hh.
Qed.

Lemma keeps_session_ret {A} (a : A) : keeps_session (ret (Image:=Image) a).
Proof. now intros w. Qed.

Lemma keeps_session_raise {A} e : keeps_session (raise (Image:=Image) (A:=A) e).
Proof. now intros w. Qed.

Lemma keeps_session_emit ev : keeps_session (emit (Image:=Image) ev).
Proof. now intros w. Qed.

Lemma keeps_session_get_attr name : keeps_session (get_attr (Image:=Image) name).
Proof. intros w. unfold get_attr. now destruct (session w !! name). Qed.

Lemma keeps_session_ollama_chat env req :
  keeps_session (ollama_chat (Image:=Image) env req).
Proof. intros w. unfold ollama_chat. now destruct (backend env _ req). Qed.

Lemma keeps_session_save_png v : keeps_session (save_png Image_save_png v).
Proof.
  intros w. destruct v as [| |im]; simpl; try reflexivity.
  now destruct (Image_save_png im).
Qed.

Lemma keeps_session_if {A} (b : bool) (m1 m2 : M Image A) :
  keeps_session m1 -> keeps_session m2 ->
  keeps_session (if b then m1 else m2).
Proof. now destruct b. Qed.

#[local] Hint Resolve keeps_session_ret keeps_session_raise keeps_session_emit
  keeps_session_get_attr keeps_session_ollama_chat keeps_session_save_png
  : keeps.

Ltac keeps_session_tac :=
  repeat first
    [ apply keeps_session_bind; [|intros ?]
    | apply keeps_session_try; [|intros ?]
    | apply keeps_session_if
    | solve [auto with keeps] ].

Lemma keeps_session_process_image env image_file :
  keeps_session (process_image (Image:=Image) env image_file).
Proof. unfold process_image. keeps_session_tac. Qed.

Lemma keeps_session_solve_equation env latex_code :
  keeps_session (solve_equation Image_repr env latex_code).
Proof. unfold solve_equation. keeps_session_tac. Qed.

Lemma keeps_session_cleaned v : keeps_session (cleaned v).
Proof. destruct v; simpl; auto with keeps. Qed.

Lemma keeps_session_display_results :
  keeps_session (display_results (Image:=Image)).
Proof.
  unfold display_results.
  pose proof keeps_session_cleaned.
  keeps_session_tac.
Qed.

Lemma keeps_session_setup_page : keeps_session (setup_page (Image:=Image)).
Proof. unfold setup_page. keeps_session_tac. Qed.

(** *** What the inference functions and the two button blocks compute *)

Lemma process_image_eq env image_file w :
  process_image env image_file w =
  match backend env (length (calls w)) (vision_request image_file) with
  | ChatContent c =>
      (Ret (VStr c),
       {| session := session w;
          calls := calls w ++ [vision_request image_file];
          ui := ui w |})
  | ChatRaises msg =>
      (Ret VNone,
       {| session := session w;
          calls := calls w ++ [vision_request image_file];
          ui := ui w ++ [UiError ("Error processing image: " +:+ msg)] |})
  end.
Proof.
  unfold process_image, try_except, bind, ollama_chat.
  now destruct (backend env _ _).
Qed.

Lemma solve_equation_eq env latex_code w :
  solve_equation Image_repr env latex_code w =
  match backend env (length (calls w)) (math_request Image_repr latex_code) with
  | ChatContent c =>
      (Ret (VStr c),
       {| session := session w;
          calls := calls w ++ [math_request Image_repr latex_code];
          ui := ui w |})
  | ChatRaises msg =>
      (Ret VNone,
       {| session := session w;
          calls := calls w ++ [math_request Image_repr latex_code];
          ui := ui w ++ [UiError ("Error solving equation: " +:+ msg)] |})
  end.
Proof.
  unfold solve_equation, try_except, bind, ollama_chat.
  now destruct (backend env _ _).
Qed.

(** The extract block when the button is clicked, an image is stored
    and it can be written as PNG. *)
Lemma extract_step_eq env w im png :
  extract_clicked env = true ->
  session w !! "uploaded_image" = Some (VImage im) ->
  Image_save_png im = Some png ->
  extract_step Image_save_png env w =
  match backend env (length (calls w)) (vision_request png) with
  | ChatContent c =>
      (Ret tt,
       {| session :=
            if String.eqb c "" then session w
            else <["solution_result" := VNone]>
                   (<["ocr_result" := VStr c]> (session w));
          calls := calls w ++ [vision_request png];
          ui := ui w |})
  | ChatRaises msg =>
      (Ret tt,
       {| session := session w;
          calls := calls w ++ [vision_request png];
          ui := ui w ++ [UiError ("Error processing image: " +:+ msg)] |})
  end.
Proof.
  intros Hclick Him Hpng.
  unfold extract_step. rewrite Hclick.
  unfold bind at 1. unfold get_attr. rewrite Him.
  unfold bind at 1. cbn [save_png]. rewrite Hpng. cbn [ret].
  unfold bind at 1. rewrite process_image_eq. cbn [session calls].
  destruct (backend env _ _) as [c|msg]; [|reflexivity].
  cbn [truthy]. now destruct (String.eqb c "").
Qed.

(** The solve block when the button is clicked and an extraction is
    stored. *)
Lemma solve_step_eq env w ocr :
  solve_clicked env = true ->
  session w !! "ocr_result" = Some ocr ->
  truthy ocr = true ->
  solve_step Image_repr env w =
  match backend env (length (calls w)) (math_request Image_repr ocr) with
  | ChatContent c =>
      (Ret tt,
       {| session :=
            if String.eqb c "" then session w
            else <["solution_result" := VStr c]> (session w);
          calls := calls w ++ [math_request Image_repr ocr];
          ui := ui w |})
  | ChatRaises msg =>
      (Ret tt,
       {| session := session w;
          calls := calls w ++ [math_request Image_repr ocr];
          ui := ui w ++ [UiError ("Error solving equation: " +:+ msg)] |})
  end.
Proof.
  intros Hclick Hocr Htrue.
  unfold solve_step.
  unfold bind at 1. unfold get_attr at 1. rewrite Hocr, Htrue, Hclick.
  cbn [andb]. unfold bind at 1. unfold get_attr. rewrite Hocr.
  unfold bind at 1. rewrite solve_equation_eq.
  destruct (backend env _ _) as [c|msg]; [|reflexivity].
  cbn [truthy]. now destruct (String.eqb c "").
Qed.

(** The solve block is skipped when nothing extracted is stored or the
    button is not clicked. *)
Lemma solve_step_skip env w ocr :
  session w !! "ocr_result" = Some ocr ->
  truthy ocr && solve_clicked env = false ->
  solve_step Image_repr env w = (Ret tt, w).
Proof.
  intros Hocr Hgate. unfold solve_step, bind, get_attr.
  now rewrite Hocr, Hgate.
Qed.

(** *** The ordering invariant of the workflow state *)

Lemma is_set_insert name k v ss :
  is_set name (<[k := v]> ss) =
  if decide (k = name) then not_None v else is_set name ss.
Proof. unfold is_set. rewrite lookup_insert. now case_decide. Qed.

Lemma truthy_not_None v : truthy v = true -> not_None v = true.
Proof. now destruct v. Qed.

Lemma is_set_lookup name ss v :
  ss !! name = Some v -> truthy v = true -> is_set name ss = true.
Proof. unfold is_set. intros -> Hv. now apply truthy_not_None. Qed.

(** Giving a missing attribute the value [None] sets no field. *)
Lemma is_set_default name k ss :
  ss !! k = None -> is_set name (<[k := VNone]> ss) = is_set name ss.
Proof.
  intros Hk. rewrite is_set_insert. case_decide as Heq; [|reflexivity].
  subst. unfold is_set. now rewrite Hk.
Qed.

Lemma ordered_default k ss :
  ss !! k = None -> ordered ss -> ordered (<[k := VNone]> ss).
Proof.
  intros Hk. unfold ordered. now rewrite !is_set_default.
Qed.

Ltac is_set_tac :=
  unfold ordered; rewrite ?is_set_insert;
  repeat case_decide; try congruence; cbn [not_None].

Lemma ordered_cleared ss :
  ordered (<["solution_result" := VNone]>
             (<["uploaded_image" := VNone]>
                (<["ocr_result" := VNone]> ss))).
Proof. is_set_tac. split; discriminate. Qed.

Lemma ordered_upload ss im :
  ordered ss -> ordered (<["uploaded_image" := VImage im]> ss).
Proof. intros [H1 H2]. is_set_tac. now split. Qed.

Lemma ordered_extracted ss result :
  is_set "uploaded_image" ss = true ->
  truthy result = true ->
  ordered (<["solution_result" := VNone]> (<["ocr_result" := result]> ss))
  /\ is_set "uploaded_image"
       (<["solution_result" := VNone]> (<["ocr_result" := result]> ss)) = true.
Proof.
  intros Him Hres. apply truthy_not_None in Hres.
  is_set_tac. rewrite Hres. now repeat split.
Qed.

Lemma ordered_solved ss solution :
  ordered ss ->
  is_set "uploaded_image" ss = true ->
  is_set "ocr_result" ss = true ->
  ordered (<["solution_result" := solution]> ss)
  /\ is_set "uploaded_image" (<["solution_result" := solution]> ss) = true.
Proof. intros [H1 H2] Him Hocr. is_set_tac. now repeat split. Qed.

Lemma ordered_empty : ordered (∅ : gmap string (Value Image)).
Proof. split; discriminate. Qed.

(** *** Every part of the script keeps the workflow state ordered *)

Abbreviation Ord := (fun w' : World Image => ordered (session w')).
Abbreviation OrdLoaded :=
  (fun (_ : unit) (w' : World Image) =>
     ordered (session w') /\ is_set "uploaded_image" (session w') = true).

Lemma wp_get_attr name (Q : Value Image -> World Image -> Prop) E w :
  (forall v, session w !! name = Some v -> Q v w) ->
  (session w !! name = None -> E w) ->
  wp (get_attr name) Q E w.
Proof.
  intros HQ HE. unfold wp, get_attr.
  destruct (session w !! name); auto.
Qed.

(** Sequencing after a computation that leaves the session alone. *)
Lemma wp_bind_keeps {A B} (m : M Image A) (k : A -> M Image B) Q
    (PE : gmap string (Value Image) -> Prop) w :
  keeps_session m ->
  PE (session w) ->
  (forall a w', session w' = session w ->
                wp (k a) Q (fun w'' => PE (session w'')) w') ->
  wp (bind m k) Q (fun w'' => PE (session w'')) w.
Proof.
  intros Hm HE Hk. apply wp_bind. specialize (Hm w). unfold wp at 1.
  destruct (m w) as [[a|e] w']; simpl in Hm.
  - now apply Hk.
  - now rewrite Hm.
Qed.

Lemma wp_keeps {A} (m : M Image A)
    (P : gmap string (Value Image) -> Prop) w :
  keeps_session m -> P (session w) ->
  wp m (fun _ w' => P (session w')) (fun w' => P (session w')) w.
Proof.
  intros Hm HP. specialize (Hm w). unfold wp.
  destruct (m w) as [[a|e] w']; simpl in Hm; now rewrite Hm.
Qed.

Ltac step_keeps :=
  apply (wp_bind_keeps _ _ _ ordered);
  [ first [ solve [auto with keeps]
          | apply keeps_session_process_image
          | apply keeps_session_solve_equation
          | apply keeps_session_setup_page
          | apply keeps_session_display_results ]
  | first [assumption | congruence]
  | ].

Lemma default_attr_ordered name w :
  ordered (session w) ->
  wp (bind (has_attr name)
        (fun b => if negb b then set_attr name VNone else ret tt))
     (fun _ => Ord) Ord w.
Proof.
  intros Hord. unfold wp, bind, has_attr.
  case_bool_decide as Hin; simpl; [assumption|].
  apply ordered_default; [|assumption].
  now apply eq_None_not_Some.
Qed.

Lemma init_session_state_ordered w :
  ordered (session w) -> wp init_session_state (fun _ => Ord) Ord w.
Proof.
  intros Hord. unfold init_session_state.
  pose proof (default_attr_ordered "ocr_result" w Hord) as H1.
  unfold wp, bind in *.
  destruct (has_attr "ocr_result" w) as [[b1|e1] w1]; [|assumption].
  destruct ((if negb b1 then set_attr "ocr_result" VNone else ret tt) w1)
    as [[[]|e1] w1']; [|assumption].
  pose proof (default_attr_ordered "uploaded_image" w1' H1) as H2.
  unfold wp, bind in H2.
  destruct (has_attr "uploaded_image" w1') as [[b2|e2] w2]; [|assumption].
  destruct ((if negb b2 then set_attr "uploaded_image" VNone else ret tt) w2)
    as [[[]|e2] w2']; [|assumption].
  exact (default_attr_ordered "solution_result" w2' H2).
Qed.

Lemma create_clear_button_ordered env w :
  ordered (session w) -> wp (create_clear_button env) (fun _ => Ord) Ord w.
Proof.
  intros Hord. unfold create_clear_button.
  destruct (clear_clicked env); [|assumption].
  unfold wp, bind, set_attr, raise. simpl. apply ordered_cleared.
Qed.

Lemma upload_step_ordered env w :
  ordered (session w) -> wp (upload_step Image_open env) (fun _ => Ord) Ord w.
Proof.
  intros Hord. unfold upload_step.
  destruct (uploaded_file env) as [f|]; [|assumption].
  destruct (Image_open f) as [im|]; [|assumption].
  unfold wp, set_attr. simpl. now apply ordered_upload.
Qed.

Lemma extract_step_ordered env w :
  ordered (session w) ->
  is_set "uploaded_image" (session w) = true ->
  wp (extract_step Image_save_png env) OrdLoaded Ord w.
Proof.
  intros Hord Him. unfold extract_step.
  destruct (extract_clicked env); [|now split].
  apply (wp_bind_keeps _ _ _ ordered); auto with keeps.
  intros im w1 E1.
  apply (wp_bind_keeps _ _ _ ordered); auto with keeps; [congruence|].
  intros png w2 E2.
  apply (wp_bind_keeps _ _ _ ordered);
    [apply keeps_session_process_image|congruence|].
  intros result w3 E3.
  assert (Hs : session w3 = session w) by congruence.
  destruct (truthy result) eqn:Hres.
  - unfold wp, bind, set_attr. simpl. rewrite Hs.
    now apply ordered_extracted.
  - unfold wp, ret. rewrite Hs. now split.
Qed.

Lemma solve_step_ordered env w :
  ordered (session w) ->
  is_set "uploaded_image" (session w) = true ->
  wp (solve_step Image_repr env) OrdLoaded Ord w.
Proof.
  intros Hord Him. unfold solve_step.
  apply wp_bind, wp_get_attr; [|auto]. intros ocr Hocr.
  destruct (truthy ocr) eqn:Htrue; [|now split].
  destruct (solve_clicked env); [|now split].
  cbn [andb].
  pose proof (is_set_lookup _ _ _ Hocr Htrue) as Hset.
  apply (wp_bind_keeps _ _ _ ordered); auto with keeps.
  intros latex_code w1 E1.
  apply (wp_bind_keeps _ _ _ ordered);
    [apply keeps_session_solve_equation|congruence|].
  intros solution w2 E2.
  assert (Hs : session w2 = session w) by congruence.
  destruct (truthy solution).
  - unfold wp, set_attr. simpl. rewrite Hs. now apply ordered_solved.
  - unfold wp, ret. rewrite Hs. now split.
Qed.

Lemma sidebar_content_ordered env w :
  ordered (session w) ->
  wp (sidebar_content Image_open Image_save_png Image_repr env)
     (fun _ => Ord) Ord w.
Proof.
  intros Hord. unfold sidebar_content.
  do 6 (step_keeps; intros [] ? ?).
  apply wp_bind.
  eapply wp_conseq; [apply upload_step_ordered; congruence| |auto].
  cbn beta. intros _ w1 Hord1.
  apply wp_bind, wp_get_attr; [|auto]. intros im Him.
  destruct (truthy im) eqn:Htrue; [|assumption].
  pose proof (is_set_lookup _ _ _ Him Htrue) as Hset.
  apply (wp_bind_keeps _ _ _ ordered); auto with keeps.
  intros shown w2 E2.
  apply (wp_bind_keeps _ _ _ ordered); auto with keeps; [congruence|].
  intros [] w3 E3.
  assert (Hs : session w3 = session w1) by congruence.
  apply wp_bind.
  eapply wp_conseq;
    [apply extract_step_ordered; rewrite Hs; assumption| |auto].
  cbn beta. intros _ w4 [Hord4 Hset4].
  eapply wp_conseq; [apply solve_step_ordered; assumption| |auto].
  cbn beta. now intros _ w5 [Hord5 _].
Qed.

Lemma main_ordered env w :
  ordered (session w) ->
  wp (main Image_open Image_save_png Image_repr env) (fun _ => Ord) Ord w.
Proof.
  intros Hord. unfold main.
  apply wp_bind.
  eapply wp_conseq; [apply init_session_state_ordered; assumption| |auto].
  cbn beta. intros _ w1 Hord1.
  apply (wp_bind_keeps _ _ _ ordered);
    [apply keeps_session_setup_page|assumption|].
  intros [] w2 E2. apply wp_bind.
  eapply wp_conseq; [apply create_clear_button_ordered; congruence| |auto].
  cbn beta. intros _ w3 Hord3.
  do 2 (step_keeps; intros [] ? ?).
  apply wp_bind.
  eapply wp_conseq; [apply sidebar_content_ordered; congruence| |auto].
  cbn beta. intros _ w4 Hord4.
  apply (wp_bind_keeps _ _ _ ordered);
    [apply keeps_session_display_results|assumption|].
  intros [] w5 E5.
  apply (wp_bind_keeps _ _ _ ordered); auto with keeps; [congruence|].
  intros [] w6 E6.
  apply (wp_keeps _ ordered); auto with keeps. congruence.
Qed.

(** C2: every session state reachable from a brand-new session by runs
    of the script, whatever the widgets return and the backend answers,
    satisfies: solution_result set implies ocr_result set, and
    ocr_result set implies uploaded_image set. *)
Theorem reachable_ordered (ss : gmap string (Value Image)) :
  reachable Image_open Image_save_png Image_repr ss -> ordered ss.
Proof.
  induction 1 as [|env ss Hreach IH].
  - apply ordered_empty.
  - unfold run. pose proof (main_ordered env (start ss) IH) as Hmain.
    unfold wp in Hmain.
    now destruct (main _ _ _ env (start ss)) as [[[]|e] w'].
Qed.

(** *** Loading an image *)

(** C1, amended: loading an image (a decodable upload reaching lines
    99-101) stores the decoded image in uploaded_image and changes
    nothing else; ocr_result and solution_result keep the values they
    had, for every prior state. *)
Theorem upload_step_keeps_results env w f im :
  uploaded_file env = Some f ->
  Image_open f = Some im ->
  upload_step Image_open env w = (Ret tt, assign "uploaded_image" (VImage im) w)
  /\ session (snd (upload_step Image_open env w)) !! "uploaded_image"
     = Some (VImage im)
  /\ session (snd (upload_step Image_open env w)) !! "ocr_result"
     = session w !! "ocr_result"
  /\ session (snd (upload_step Image_open env w)) !! "solution_result"
     = session w !! "solution_result".
Proof.
  intros Hf Him. unfold upload_step. rewrite Hf, Him.
  unfold set_attr, assign. cbn [snd session].
  repeat split.
  - apply lookup_insert_eq.
  - now rewrite lookup_insert_ne.
  - now rewrite lookup_insert_ne.
Qed.

(** *** Gating of the two inference stages *)

Lemma sidebar_content_no_image env w v :
  uploaded_file env = None ->
  session w !! "uploaded_image" = Some v ->
  truthy v = false ->
  exists ui',
    sidebar_content Image_open Image_save_png Image_repr env w
    = (Ret tt, {| session := session w; calls := calls w; ui := ui' |}).
Proof.
  intros Hf Him Hv. unfold sidebar_content, upload_step. rewrite Hf.
  unfold bind, emit, ret, get_attr. cbn [session calls ui].
  rewrite Him, Hv. eauto.
Qed.

(** C3, amended: no precondition error exists in the script.  With
    ocr_result unset (or empty) the solve block is skipped silently: it
    returns normally and the world is unchanged, so no request is sent;
    with uploaded_image unset and no file uploaded, the extract and
    solve blocks are skipped the same way.  The rejection relies on
    these gates alone: [solve_equation] accepts any argument, [None]
    included, sends its one request and returns normally. *)
Theorem stages_gated_not_rejected env w :
  (forall ocr,
     session w !! "ocr_result" = Some ocr -> truthy ocr = false ->
     solve_step Image_repr env w = (Ret tt, w))
  /\ (forall v,
        uploaded_file env = None ->
        session w !! "uploaded_image" = Some v -> truthy v = false ->
        let r := sidebar_content Image_open Image_save_png Image_repr env w in
        fst r = Ret tt /\ session (snd r) = session w
        /\ calls (snd r) = calls w)
  /\ (forall latex_code,
        exists result w',
          solve_equation Image_repr env latex_code w = (Ret result, w')
          /\ session w' = session w
          /\ calls w' = (calls w ++ [math_request Image_repr latex_code])%list).
Proof.
  split; [|split].
  - intros ocr Hocr Hfalse. apply (solve_step_skip env w ocr Hocr).
    now rewrite Hfalse.
  - intros v Hf Him Hv.
    destruct (sidebar_content_no_image env w v Hf Him Hv) as [ui' ->].
    now repeat split.
  - intros latex_code. rewrite solve_equation_eq.
    destruct (backend env _ _); eauto.
Qed.

(** *** Failing and empty inference replies *)

(** C5: when the backend fails on the request, [process_image] and
    [solve_equation] return [None] to their caller instead of raising,
    after exactly one request and one error message; the enclosing
    button blocks then finish normally with the session state
    unchanged. *)
Theorem inference_failure_recoverable env w msg :
  (forall image_file,
     backend env (length (calls w)) (vision_request image_file)
     = ChatRaises msg ->
     process_image env image_file w =
     (Ret VNone,
      {| session := session w;
         calls := calls w ++ [vision_request image_file];
         ui := ui w ++ [UiError ("Error processing image: " +:+ msg)] |}))
  /\ (forall latex_code,
        backend env (length (calls w)) (math_request Image_repr latex_code)
        = ChatRaises msg ->
        solve_equation Image_repr env latex_code w =
        (Ret VNone,
         {| session := session w;
            calls := calls w ++ [math_request Image_repr latex_code];
            ui := ui w ++ [UiError ("Error solving equation: " +:+ msg)] |}))
  /\ (forall im png,
        extract_clicked env = true ->
        session w !! "uploaded_image" = Some (VImage im) ->
        Image_save_png im = Some png ->
        backend env (length (calls w)) (vision_request png) = ChatRaises msg ->
        extract_step Image_save_png env w =
        (Ret tt,
         {| session := session w;
            calls := calls w ++ [vision_request png];
            ui := ui w ++ [UiError ("Error processing image: " +:+ msg)] |}))
  /\ (forall ocr,
        solve_clicked env = true ->
        session w !! "ocr_result" = Some ocr ->
        truthy ocr = true ->
        backend env (length (calls w)) (math_request Image_repr ocr)
        = ChatRaises msg ->
        solve_step Image_repr env w =
        (Ret tt,
         {| session := session w;
            calls := calls w ++ [math_request Image_repr ocr];
            ui := ui w ++ [UiError ("Error solving equation: " +:+ msg)] |})).
Proof.
  repeat split.
  - intros image_file Hfail. now rewrite process_image_eq, Hfail.
  - intros latex_code Hfail. now rewrite solve_equation_eq, Hfail.
  - intros im png Hclick Him Hpng Hfail.
    now rewrite (extract_step_eq env w im png Hclick Him Hpng), Hfail.
  - intros ocr Hclick Hocr Htrue Hfail.
    now rewrite (solve_step_eq env w ocr Hclick Hocr Htrue), Hfail.
Qed.

(** A backend whose replies are all empty or failures never changes the
    session through the extract block or the solve block. *)
Lemma extract_step_falsy env w answer :
  (forall n req, answer n req = ChatContent ""
                 \/ exists msg, answer n req = ChatRaises msg) ->
  session (snd (extract_step Image_save_png (with_backend env answer) w))
  = session w.
Proof.
  intros Hanswer. unfold extract_step. cbn [with_backend extract_clicked].
  destruct (extract_clicked env); [|reflexivity].
  unfold bind at 1. unfold get_attr.
  destruct (session w !! "uploaded_image") as [v|]; [|reflexivity].
  unfold bind at 1.
  destruct v as [| |im]; cbn [save_png]; try reflexivity.
  destruct (Image_save_png im) as [png|]; [|reflexivity].
  cbn [ret]. unfold bind at 1. rewrite process_image_eq. cbn [backend with_backend].
  now destruct (Hanswer (length (calls w)) (vision_request png))
    as [->|[msg ->]].
Qed.

Lemma solve_step_falsy env w answer :
  (forall n req, answer n req = ChatContent ""
                 \/ exists msg, answer n req = ChatRaises msg) ->
  session (snd (solve_step Image_repr (with_backend env answer) w))
  = session w.
Proof.
  intros Hanswer. unfold solve_step. cbn [with_backend solve_clicked].
  unfold bind at 1. unfold get_attr at 1.
  destruct (session w !! "ocr_result") as [ocr|] eqn:Hocr; [|reflexivity].
  destruct (truthy ocr && solve_clicked env); [|reflexivity].
  unfold bind at 1. unfold get_attr. rewrite Hocr.
  unfold bind at 1. rewrite solve_equation_eq. cbn [backend with_backend].
  now destruct (Hanswer (length (calls w)) (math_request Image_repr ocr))
    as [->|[msg ->]].
Qed.

(** C6: with an image stored, a clicked extraction whose reply is a
    (non-empty, hence truthy) text [t] stores exactly [t] in ocr_result
    and resets solution_result to [None], whatever solution_result held
    before; the image stays and the phase is Extracted. *)
Theorem extract_succeeded env w im png t :
  extract_clicked env = true ->
  session w !! "uploaded_image" = Some (VImage im) ->
  Image_save_png im = Some png ->
  backend env (length (calls w)) (vision_request png) = ChatContent t ->
  t <> "" ->
  let r := extract_step Image_save_png env w in
  fst r = Ret tt
  /\ session (snd r)
     = <["solution_result" := VNone]> (<["ocr_result" := VStr t]> (session w))
  /\ session (snd r) !! "ocr_result" = Some (VStr t)
  /\ session (snd r) !! "solution_result" = Some VNone
  /\ session (snd r) !! "uploaded_image" = Some (VImage im)
  /\ phase_of (session (snd r)) = Extracted.
Proof.
  intros Hclick Him Hpng Hreply Ht r. subst r.
  rewrite (extract_step_eq env w im png Hclick Him Hpng), Hreply.
  apply String.eqb_neq in Ht. rewrite Ht. cbn [fst snd session].
  repeat split.
  - now rewrite lookup_insert_ne, lookup_insert_eq.
  - apply lookup_insert_eq.
  - now rewrite !lookup_insert_ne.
  - unfold phase_of, is_set.
    rewrite lookup_insert_eq. cbn [not_None].
    now rewrite lookup_insert_ne, lookup_insert_eq.
Qed.

(** C9: a reply with empty content does not take the succeeded branch.
    The extract block (and likewise the solve block) finishes with the
    session state unchanged, and the session it leaves is the one a
    failing backend leaves. *)
Theorem empty_reply_like_failure env w :
  (forall im png,
     extract_clicked env = true ->
     session w !! "uploaded_image" = Some (VImage im) ->
     Image_save_png im = Some png ->
     backend env (length (calls w)) (vision_request png) = ChatContent "" ->
     extract_step Image_save_png env w =
     (Ret tt, {| session := session w;
                 calls := calls w ++ [vision_request png];
                 ui := ui w |}))
  /\ (forall ocr,
        solve_clicked env = true ->
        session w !! "ocr_result" = Some ocr ->
        truthy ocr = true ->
        backend env (length (calls w)) (math_request Image_repr ocr)
        = ChatContent "" ->
        solve_step Image_repr env w =
        (Ret tt, {| session := session w;
                    calls := calls w ++ [math_request Image_repr ocr];
                    ui := ui w |}))
  /\ (forall msg,
        session (snd (extract_step Image_save_png
                        (with_backend env (fun _ _ => ChatContent "")) w))
        = session (snd (extract_step Image_save_png
                          (with_backend env (fun _ _ => ChatRaises msg)) w))
        /\ session (snd (solve_step Image_repr
                           (with_backend env (fun _ _ => ChatContent "")) w))
           = session (snd (solve_step Image_repr
                             (with_backend env (fun _ _ => ChatRaises msg)) w))).
Proof.
  split; [|split].
  - intros im png Hclick Him Hpng Hreply.
    now rewrite (extract_step_eq env w im png Hclick Him Hpng), Hreply.
  - intros ocr Hclick Hocr Htrue Hreply.
    now rewrite (solve_step_eq env w ocr Hclick Hocr Htrue), Hreply.
  - intros msg.
    rewrite !extract_step_falsy, !solve_step_falsy; eauto.
Qed.

(** *** Rendering *)

(** C7: rendering the results, which computes the cleaned copy of the
    extracted text and hands it to [st.latex], leaves the whole session
    state, so in particular ocr_result and solution_result, as it was. *)
Theorem display_results_keeps_state w :
  session (snd (display_results w)) = session w
  /\ (forall s,
        session w !! "ocr_result" = Some (VStr s) -> s <> "" ->
        session (snd (display_results w)) !! "ocr_result" = Some (VStr s)
        /\ exists rest,
             ui (snd (display_results w))
             = (ui w ++ [UiMarkdown "### LaTeX Code"; UiCode (VStr s) "latex";
                         UiMarkdown "### LaTeX Rendered";
                         UiLatex (VStr (cleaned_latex s))] ++ rest)%list).
Proof.
  split; [apply keeps_session_display_results|].
  intros s Hocr Hs. split.
  - now rewrite keeps_session_display_results.
  -
 apply String.eqb_neq in Hs.
    unfold display_results. run_step.
    cbn [truthy]. rewrite Hs. cbn [negb].
    do 5 run_step. cbn [cleaned]. do 2 run_step.
    rewrite <- !app_assoc. cbn [app ui].
    destruct (session w !! "solution_result") as [sol|] eqn:Hsol.
    + run_step. destruct (truthy sol).
      * do 4 run_step. unfold emit. cbn [snd ui].
        rewrite <- !app_assoc. cbn [app]. eexists. reflexivity.
      * cbn [ret snd ui]. exists []. reflexivity.
    + rewrite bind_get_attr_None by exact Hsol.
      cbn [snd ui]. exists []. reflexivity.
Qed.

(** *** Clearing *)

Lemma create_clear_button_eq env w :
  clear_clicked env = true ->
  create_clear_button env w =
  (Raise RerunException,
   {| session := cleared (session w); calls := calls w; ui := ui w |}).
Proof. intros Hclick. unfold create_clear_button. now rewrite Hclick. Qed.

Lemma cleared_idempotent ss : cleared (cleared ss) = cleared ss.
Proof.
  unfold cleared. apply map_eq. intros k.
  rewrite !lookup_insert. now repeat case_decide.
Qed.

Lemma cleared_lookup ss name :
  name ∈ ["uploaded_image"; "ocr_result"; "solution_result"] ->
  cleared ss !! name = Some VNone.
Proof.
  intros Hname. unfold cleared.
  apply elem_of_cons in Hname as [->|Hname];
    [rewrite lookup_insert_ne by done; apply lookup_insert_eq|].
  apply elem_of_cons in Hname as [->|Hname];
    [rewrite !lookup_insert_ne by done; apply lookup_insert_eq|].
  apply list_elem_of_singleton in Hname as ->. apply lookup_insert_eq.
Qed.

Lemma cleared_phase ss : phase_of (cleared ss) = Empty.
Proof.
  unfold phase_of, is_set.
  rewrite !cleared_lookup; [reflexivity|..];
    repeat first [apply list_elem_of_here | apply list_elem_of_further].
Qed.

Lemma init_session_state_returns w :
  exists ss', init_session_state w
              = (Ret tt, {| session := ss'; calls := calls w; ui := ui w |}).
Proof.
  destruct w as [ss cs us].
  unfold init_session_state, bind, has_attr, set_attr, ret.
  cbn [session calls ui].
  repeat (case_bool_decide; cbn [negb session calls ui]); eauto.
Qed.

(** C8: a click on Clear leaves uploaded_image, ocr_result and
    solution_result all [None], whatever they held, in the button
    handler and so in the whole run of the script; clearing again
    changes nothing. *)
Theorem clear_resets_all env w :
  clear_clicked env = true ->
  let w1 := snd (create_clear_button env w) in
  session w1 !! "uploaded_image" = Some VNone
  /\ session w1 !! "ocr_result" = Some VNone
  /\ session w1 !! "solution_result" = Some VNone
  /\ phase_of (session w1) = Empty
  /\ snd (create_clear_button env w1) = w1
  /\ (forall name,
        name ∈ ["uploaded_image"; "ocr_result"; "solution_result"] ->
        run Image_open Image_save_png Image_repr env (session w) !! name
        = Some VNone).
Proof.
  intros Hclick w1. subst w1.
  rewrite !(create_clear_button_eq env _ Hclick). cbn [snd session calls ui].
  rewrite cleared_idempotent.
  split; [apply cleared_lookup; apply list_elem_of_here|].
  split; [apply cleared_lookup; apply list_elem_of_further, list_elem_of_here|].
  split; [apply cleared_lookup; do 2 apply list_elem_of_further;
          apply list_elem_of_here|].
  split; [apply cleared_phase|].
  split; [reflexivity|].
  unfold run, main.
  destruct (init_session_state_returns (start (session w))) as [ss' Hinit].
  intros name Hname. unfold bind at 1. rewrite Hinit.
  unfold bind at 1. unfold setup_page at 1. rewrite !bind_emit.
  unfold emit at 1. cbn [session calls ui].
  unfold bind at 1. rewrite (create_clear_button_eq env _ Hclick).
  cbn [snd session]. now apply cleared_lookup.
Qed.

(** *** The image sent for extraction *)

Lemma solve_step_calls env w :
  exists rest,
    calls (snd (solve_step Image_repr env w)) = (calls w ++ rest)%list.
Proof.
  destruct (session w !! "ocr_result") as [ocr|] eqn:Hocr.
  - destruct (truthy ocr && solve_clicked env) eqn:Hgate.
    + apply andb_true_iff in Hgate as [Htrue Hclick].
      rewrite (solve_step_eq env w ocr Hclick Hocr Htrue).
      destruct (backend env _ _); eexists; reflexivity.
    + rewrite (solve_step_skip env w ocr Hocr Hgate).
      exists []. now rewrite app_nil_r.
  - unfold solve_step. rewrite bind_get_attr_None by exact Hocr.
    exists []. now rewrite app_nil_r.
Qed.

Lemma sidebar_content_upload env w f im :
  uploaded_file env = Some f ->
  Image_open f = Some im ->
  exists ui',
    sidebar_content Image_open Image_save_png Image_repr env w
    = bind (extract_step Image_save_png env)
        (fun _ => solve_step Image_repr env)
        {| session := <["uploaded_image" := VImage im]> (session w);
           calls := calls w; ui := ui' |}.
Proof.
  intros Hf Him. unfold sidebar_content, upload_step. rewrite Hf, Him.
  do 7 run_step.
  erewrite bind_get_attr by apply lookup_insert_eq.
  cbn [truthy].
  erewrite bind_get_attr by apply lookup_insert_eq.
  run_step. eexists. reflexivity.
Qed.

(** C10: the image payload of the extraction request is the PNG
    re-encoding of the stored (decoded) image, [Image_save_png] of it,
    and no request is sent when that encoding fails; in a run that
    uploads file [f] and clicks Extract, the request carries the PNG
    encoding of the image decoded from [f], whatever the format and
    bytes of [f] were. *)
Theorem extraction_sends_png env w :
  (forall im,
     extract_clicked env = true ->
     session w !! "uploaded_image" = Some (VImage im) ->
     calls (snd (extract_step Image_save_png env w))
     = (calls w ++ match Image_save_png im with
                   | Some png => [vision_request png]
                   | None => []
                   end)%list)
  /\ (forall f im png,
        uploaded_file env = Some f ->
        Image_open f = Some im ->
        Image_save_png im = Some png ->
        extract_clicked env = true ->
        exists rest,
          calls (snd (sidebar_content Image_open Image_save_png Image_repr
                        env w))
          = (calls w ++ vision_request png :: rest)%list)
  /\ (forall png,
        model (vision_request png) = VISION_MODEL
        /\ images <$> messages (vision_request png) = [Some [png]]).
Proof.
  split; [|split].
  - intros im Hclick Him.
    destruct (Image_save_png im) as [png|] eqn:Hpng.
    + rewrite (extract_step_eq env w im png Hclick Him Hpng).
      now destruct (backend env _ _).
    + unfold extract_step. rewrite Hclick.
      erewrite bind_get_attr by exact Him.
      unfold bind. cbn [save_png]. rewrite Hpng.
      cbn [raise snd]. now rewrite app_nil_r.
  - intros f im png Hf Him Hpng Hclick.
    destruct (sidebar_content_upload env w f im Hf Him) as [ui' ->].
    unfold bind.
    rewrite (extract_step_eq env _ im png Hclick
               (lookup_insert_eq _ _ _) Hpng).
    cbn [calls].
    destruct (backend env _ _) as [c|msg].
    + match goal with
      | |- context [solve_step Image_repr env ?w1] =>
          destruct (solve_step_calls env w1) as [rest ->]
      end.
      cbn [calls]. rewrite <- app_assoc. eexists. reflexivity.
    + match goal with
      | |- context [solve_step Image_repr env ?w1] =>
          destruct (solve_step_calls env w1) as [rest ->]
      end.
      cbn [calls]. rewrite <- app_assoc. eexists. reflexivity.
  - intros png. split; reflexivity.
Qed.

(** *** Initialisation of the session state *)

Lemma with_default_lookup name ss k :
  with_default name ss !! k =
  match ss !! k with
  | Some v => Some v
  | None => if decide (name = k) then Some VNone else None
  end.
Proof.
  unfold with_default.
  destruct (ss !! name) as [v0|] eqn:Hname.
  - destruct (ss !! k) as [v|] eqn:Hk; [reflexivity|].
    case_decide; [congruence|reflexivity].
  - rewrite lookup_insert. case_decide as Heq.
    + subst. now rewrite Hname.
    + now destruct (ss !! k).
Qed.

Lemma init_session_state_eq w :
  init_session_state w =
  (Ret tt,
   {| session := with_default "solution_result"
                   (with_default "uploaded_image"
                      (with_default "ocr_result" (session w)));
      calls := calls w; ui := ui w |}).
Proof.
  destruct w as [ss cs us].
  unfold init_session_state, bind, has_attr, set_attr, ret, with_default.
  cbn [session calls ui].
  destruct (ss !! "ocr_result") as [v1|] eqn:H1;
    [rewrite bool_decide_true by eauto|rewrite bool_decide_false by (now intros [? ?])];
    cbn [negb session calls ui];
    match goal with
    | |- context [bool_decide (is_Some (?m !! "uploaded_image"))] =>
        destruct (m !! "uploaded_image") as [v2|] eqn:H2;
        [rewrite bool_decide_true by eauto
        |rewrite bool_decide_false by (now intros [? ?])]
    end;
    cbn [negb session calls ui];
    match goal with
    | |- context [bool_decide (is_Some (?m !! "solution_result"))] =>
        destruct (m !! "solution_result") as [v3|] eqn:H3;
        [rewrite bool_decide_true by eauto
        |rewrite bool_decide_false by (now intros [? ?])]
    end;
    reflexivity.
Qed.

Lemma initialised_lookup ss name :
  initialised ss = true -> name ∈ attributes -> is_Some (ss !! name).
Proof.
  unfold initialised. rewrite forallb_forall. intros Hall Hname.
  apply list_elem_of_In in Hname. specialize (Hall name Hname).
  now apply bool_decide_eq_true in Hall.
Qed.

Lemma initialised_intro ss :
  (forall name, name ∈ attributes -> is_Some (ss !! name)) ->
  initialised ss = true.
Proof.
  intros Hall. unfold initialised. apply forallb_forall.
  intros name Hname. apply bool_decide_eq_true, Hall.
  now apply list_elem_of_In.
Qed.

Lemma with_default_present name ss :
  is_Some (ss !! name) -> with_default name ss = ss.
Proof. intros [v Hv]. unfold with_default. now rewrite Hv. Qed.

Lemma init_session_state_present w :
  initialised (session w) = true -> init_session_state w = (Ret tt, w).
Proof.
  intros Hinit. rewrite init_session_state_eq.
  rewrite (with_default_present "ocr_result"),
          (with_default_present "uploaded_image"),
          (with_default_present "solution_result");
    [now destruct w|..];
    apply initialised_lookup; try assumption; unfold attributes;
    repeat first [apply list_elem_of_here | apply list_elem_of_further].
Qed.

(** X3: [init_session_state] never raises and writes nothing to the
    logs; it never overwrites an attribute that exists, gives [None] to
    each of the three attributes that is missing, creates no other
    attribute, and so leaves a session in which all three exist; on such
    a session it changes nothing. *)
Theorem init_session_state_fills_missing w :
  exists ss',
    init_session_state w
    = (Ret tt, {| session := ss'; calls := calls w; ui := ui w |})
    /\ (forall name v, session w !! name = Some v -> ss' !! name = Some v)
    /\ (forall name,
          session w !! name = None ->
          ss' !! name
          = if bool_decide (name ∈ attributes) then Some VNone else None)
    /\ initialised ss' = true
    /\ (initialised (session w) = true -> ss' = session w).
Proof.
  eexists. split; [apply init_session_state_eq|].
  split; [|split; [|split]].
  - intros name v Hv. rewrite !with_default_lookup. now rewrite Hv.
  - intros name Hnone. rewrite !with_default_lookup, Hnone.
    destruct (decide (name ∈ attributes)) as [Hin|Hnin].
    + rewrite bool_decide_true by assumption.
      unfold attributes in Hin. rewrite !elem_of_cons, elem_of_nil in Hin.
      destruct Hin as [->|[->|[->|[]]]];
        repeat (case_decide; try congruence); reflexivity.
    + rewrite bool_decide_false by assumption.
      repeat (case_decide; try reflexivity); subst;
        exfalso; apply Hnin; unfold attributes;
        repeat first [apply list_elem_of_here | apply list_elem_of_further].
  - apply initialised_intro. intros name Hname.
    unfold attributes in Hname.
    rewrite !elem_of_cons, elem_of_nil in Hname.
    rewrite !with_default_lookup.
    destruct (session w !! name); [eauto|].
    destruct Hname as [->|[->|[->|[]]]]; repeat case_decide; eauto;
      congruence.
  - intros Hinit.
    pose proof (init_session_state_present w Hinit) as Heq.
    rewrite init_session_state_eq in Heq.
    exact (f_equal (fun p => session (snd p)) Heq).
Qed.

(** *** Which attributes each part of the script can change *)

Ltac in_attributes_top :=
  unfold attributes;
  repeat first [apply list_elem_of_here | apply list_elem_of_further].

Lemma wp_session {A} (m : M Image A)
    (P : gmap string (Value Image) -> Prop) w :
  wp m (fun _ w' => P (session w')) (fun w' => P (session w')) w ->
  P (session (snd (m w))).
Proof. unfold wp. now destruct (m w) as [[a|e] w']. Qed.

Section Frame.

(** [P] is a property of the session that giving a default to a missing
    attribute and assigning to the attributes [ks] do not disturb. *)
Variable P : gmap string (Value Image) -> Prop.
Variable ks : list string.
Hypothesis P_default :
  forall ss name, name ∈ attributes -> P ss -> P (with_default name ss).
Hypothesis P_stable :
  forall ss k v, k ∈ ks -> P ss -> P (<[k := v]> ss).

Abbreviation Pw := (fun w' : World Image => P (session w')).

Ltac step_P :=
  apply (wp_bind_keeps _ _ _ P);
  [ first [ solve [auto with keeps]
          | apply keeps_session_process_image
          | apply keeps_session_solve_equation
          | apply keeps_session_setup_page
          | apply keeps_session_display_results ]
  | first [assumption | congruence]
  | ].

Ltac in_attributes :=
  unfold attributes;
  repeat first [apply list_elem_of_here | apply list_elem_of_further].

Lemma init_session_state_stable w :
  P (session w) -> wp init_session_state (fun _ => Pw) Pw w.
Proof.
  intros HP. unfold wp. rewrite init_session_state_eq. cbn [session].
  repeat apply P_default; try assumption; in_attributes.
Qed.

Lemma create_clear_button_stable env w :
  (clear_clicked env = true -> forall name, name ∈ attributes -> name ∈ ks) ->
  P (session w) -> wp (create_clear_button env) (fun _ => Pw) Pw w.
Proof.
  intros Hks HP. unfold create_clear_button.
  destruct (clear_clicked env); [|assumption].
  unfold wp, bind, set_attr, raise. cbn [session].
  repeat apply P_stable; try assumption; apply Hks; try reflexivity;
    in_attributes.
Qed.

Lemma upload_step_stable env w :
  (forall f, uploaded_file env = Some f -> "uploaded_image" ∈ ks) ->
  P (session w) -> wp (upload_step Image_open env) (fun _ => Pw) Pw w.
Proof.
  intros Hks HP. unfold upload_step.
  destruct (uploaded_file env) as [f|]; [|assumption].
  destruct (Image_open f) as [im|]; [|assumption].
  unfold wp, set_attr. cbn [session]. apply P_stable; [|assumption].
  now apply (Hks f).
Qed.

Lemma extract_step_stable env w :
  (extract_clicked env = true ->
   "ocr_result" ∈ ks /\ "solution_result" ∈ ks) ->
  P (session w) -> wp (extract_step Image_save_png env) (fun _ => Pw) Pw w.
Proof.
  intros Hks HP. unfold extract_step.
  destruct (extract_clicked env); [|assumption].
  destruct (Hks eq_refl) as [Hocr Hsol].
  step_P. intros im w1 E1.
  step_P. intros png w2 E2.
  step_P. intros result w3 E3.
  assert (Hs : session w3 = session w) by congruence.
  destruct (truthy result).
  - unfold wp, bind, set_attr. cbn [session]. rewrite Hs.
    now repeat apply P_stable.
  - unfold wp, ret. now rewrite Hs.
Qed.

Lemma solve_step_stable env w :
  (solve_clicked env = true -> "solution_result" ∈ ks) ->
  P (session w) -> wp (solve_step Image_repr env) (fun _ => Pw) Pw w.
Proof.
  intros Hks HP. unfold solve_step.
  step_P. intros ocr w1 E1.
  destruct (truthy ocr); cbn [andb]; [|unfold wp, ret; congruence].
  destruct (solve_clicked env); [|unfold wp, ret; congruence].
  step_P. intros latex_code w2 E2.
  step_P. intros solution w3 E3.
  assert (Hs : session w3 = session w) by congruence.
  destruct (truthy solution).
  - unfold wp, set_attr. cbn [session]. rewrite Hs.
    apply P_stable; [now apply Hks|assumption].
  - unfold wp, ret. now rewrite Hs.
Qed.

Lemma sidebar_content_stable env w :
  (forall f, uploaded_file env = Some f -> "uploaded_image" ∈ ks) ->
  (extract_clicked env = true ->
   "ocr_result" ∈ ks /\ "solution_result" ∈ ks) ->
  (solve_clicked env = true -> "solution_result" ∈ ks) ->
  P (session w) ->
  wp (sidebar_content Image_open Image_save_png Image_repr env)
     (fun _ => Pw) Pw w.
Proof.
  intros Him Hext Hsol HP. unfold sidebar_content.
  do 6 (step_P; intros [] ? ?).
  apply wp_bind.
  eapply wp_conseq; [apply upload_step_stable; [assumption|congruence]| |auto].
  cbn beta. intros _ w1 HP1.
  step_P. intros im w2 E2.
  destruct (truthy im); [|unfold wp, ret; congruence].
  step_P. intros shown w3 E3.
  step_P. intros [] w4 E4.
  apply wp_bind.
  eapply wp_conseq;
    [apply extract_step_stable; [assumption|congruence]| |auto].
  cbn beta. intros _ w5 HP5.
  now apply solve_step_stable.
Qed.

Lemma main_stable env w :
  (clear_clicked env = true -> forall name, name ∈ attributes -> name ∈ ks) ->
  (forall f, uploaded_file env = Some f -> "uploaded_image" ∈ ks) ->
  (extract_clicked env = true ->
   "ocr_result" ∈ ks /\ "solution_result" ∈ ks) ->
  (solve_clicked env = true -> "solution_result" ∈ ks) ->
  P (session w) ->
  wp (main Image_open Image_save_png Image_repr env) (fun _ => Pw) Pw w.
Proof.
  intros Hclear Him Hext Hsol HP. unfold main.
  apply wp_bind.
  eapply wp_conseq; [apply init_session_state_stable; assumption| |auto].
  cbn beta. intros _ w1 HP1.
  step_P. intros [] w2 E2. apply wp_bind.
  eapply wp_conseq;
    [apply create_clear_button_stable; [assumption|congruence]| |auto].
  cbn beta. intros _ w3 HP3.
  do 2 (step_P; intros [] ? ?).
  apply wp_bind.
  eapply wp_conseq;
    [apply sidebar_content_stable; try assumption; congruence| |auto].
  cbn beta. intros _ w4 HP4.
  step_P. intros [] w5 E5.
  step_P. intros [] w6 E6.
  apply (wp_keeps _ P); auto with keeps. congruence.
Qed.

End Frame.

Lemma with_default_keeps_value name ss k v :
  ss !! k = Some v -> with_default name ss !! k = Some v.
Proof. intros Hk. now rewrite with_default_lookup, Hk. Qed.

(** X4: a run of the script, however it ends, reads and writes only its
    three attributes: every other entry of the session state is left as
    it was. *)
Theorem run_touches_only_its_attributes env ss name :
  name ∉ attributes ->
  run Image_open Image_save_png Image_repr env ss !! name = ss !! name.
Proof.
  intros Hname. unfold run.
  apply (wp_session (main Image_open Image_save_png Image_repr env)
           (fun ss' => ss' !! name = ss !! name)).
  apply (main_stable (fun ss' => ss' !! name = ss !! name) attributes).
  - intros ss' k Hk Heq. rewrite with_default_lookup, Heq.
    destruct (ss !! name); [reflexivity|].
    case_decide; [congruence|reflexivity].
  - intros ss' k v Hk Heq. rewrite lookup_insert_ne; [assumption|].
    congruence.
  - intros _ k Hk. exact Hk.
  - intros f _. in_attributes_top.
  - intros _. split; in_attributes_top.
  - intros _. in_attributes_top.
  - reflexivity.
Qed.

(** X5: with Clear not clicked, each attribute that holds a value keeps
    it through the run unless its own widget acts: uploaded_image unless
    a file is uploaded, ocr_result unless Extract is clicked, and
    solution_result unless Extract or Solve is clicked. *)
Theorem attributes_change_only_by_their_widget env ss v :
  clear_clicked env = false ->
  (uploaded_file env = None ->
   ss !! "uploaded_image" = Some v ->
   run Image_open Image_save_png Image_repr env ss !! "uploaded_image"
   = Some v)
  /\ (extract_clicked env = false ->
      ss !! "ocr_result" = Some v ->
      run Image_open Image_save_png Image_repr env ss !! "ocr_result"
      = Some v)
  /\ (extract_clicked env = false -> solve_clicked env = false ->
      ss !! "solution_result" = Some v ->
      run Image_open Image_save_png Image_repr env ss !! "solution_result"
      = Some v).
Proof.
  intros Hclear. unfold run. repeat split.
  - intros Hfile Hv.
    apply (wp_session (main Image_open Image_save_png Image_repr env)
             (fun ss' => ss' !! "uploaded_image" = Some v)).
    apply (main_stable (fun ss' => ss' !! "uploaded_image" = Some v)
             ["ocr_result"; "solution_result"]).
    + intros ss' name _. apply with_default_keeps_value.
    + intros ss' k v' Hk Heq. rewrite lookup_insert_ne; [assumption|].
      rewrite !elem_of_cons, elem_of_nil in Hk.
      destruct Hk as [->|[->|[]]]; discriminate.
    + congruence.
    + congruence.
    + intros _. split; in_attributes_top.
    + intros _. in_attributes_top.
    + exact Hv.
  - intros Hext Hv.
    apply (wp_session (main Image_open Image_save_png Image_repr env)
             (fun ss' => ss' !! "ocr_result" = Some v)).
    apply (main_stable (fun ss' => ss' !! "ocr_result" = Some v)
             ["uploaded_image"; "solution_result"]).
    + intros ss' name _. apply with_default_keeps_value.
    + intros ss' k v' Hk Heq. rewrite lookup_insert_ne; [assumption|].
      rewrite !elem_of_cons, elem_of_nil in Hk.
      destruct Hk as [->|[->|[]]]; discriminate.
    + congruence.
    + intros f _. in_attributes_top.
    + congruence.
    + intros _. in_attributes_top.
    + exact Hv.
  - intros Hext Hsol Hv.
    apply (wp_session (main Image_open Image_save_png Image_repr env)
             (fun ss' => ss' !! "solution_result" = Some v)).
    apply (main_stable (fun ss' => ss' !! "solution_result" = Some v)
             ["uploaded_image"; "ocr_result"]).
    + intros ss' name _. apply with_default_keeps_value.
    + intros ss' k v' Hk Heq. rewrite lookup_insert_ne; [assumption|].
      rewrite !elem_of_cons, elem_of_nil in Hk.
      destruct Hk as [->|[->|[]]]; discriminate.
    + congruence.
    + intros f _. in_attributes_top.
    + congruence.
    + congruence.
    + exact Hv.
Qed.

(** *** The requests a run sends *)

Abbreviation silent m := (sends m (fun rest => rest = [])).

Lemma sends_conseq {A} (m : M Image A) (P Q : list ModelRequest -> Prop) :
  sends m P -> (forall rest, P rest -> Q rest) -> sends m Q.
Proof. intros Hm HPQ w. destruct (Hm w) as (rest & Hrest & HP). eauto. Qed.

Lemma sends_bind {A B} (m : M Image A) (k : A -> M Image B) P Q :
  sends m P -> (forall a, sends (k a) Q) -> Q [] ->
  sends (bind m k)
    (fun rest => exists r1 r2, rest = (r1 ++ r2)%list /\ P r1 /\ Q r2).
Proof.
  intros Hm Hk HQ w. unfold bind.
  destruct (Hm w) as (r1 & Hr1 & HP).
  destruct (m w) as [[a|e] w']; cbn [snd] in *.
  - destruct (Hk a w') as (r2 & Hr2 & HQ2).
    exists (r1 ++ r2)%list. rewrite Hr2, Hr1, app_assoc. eauto 6.
  - exists r1. split; [assumption|]. exists r1, [].
    now rewrite app_nil_r.
Qed.

Lemma sends_bind_silent_l {A B} (m : M Image A) (k : A -> M Image B) Q :
  silent m -> (forall a, sends (k a) Q) -> Q [] -> sends (bind m k) Q.
Proof.
  intros Hm Hk HQ.
  eapply sends_conseq; [apply (sends_bind m k _ Q Hm Hk HQ)|].
  intros rest (r1 & r2 & -> & -> & HQ2). exact HQ2.
Qed.

Lemma sends_bind_silent_r {A B} (m : M Image A) (k : A -> M Image B) P :
  sends m P -> (forall a, silent (k a)) -> sends (bind m k) P.
Proof.
  intros Hm Hk.
  eapply sends_conseq;
    [apply (sends_bind m k P _ Hm Hk eq_refl)|].
  intros rest (r1 & r2 & -> & HP & ->). now rewrite app_nil_r.
Qed.

Lemma silent_bind {A B} (m : M Image A) (k : A -> M Image B) :
  silent m -> (forall a, silent (k a)) -> silent (bind m k).
Proof. intros Hm Hk. now apply sends_bind_silent_l. Qed.

Lemma silent_intro {A} (m : M Image A) :
  (forall w, calls (snd (m w)) = calls w) -> silent m.
Proof. intros Hm w. exists []. now rewrite app_nil_r, Hm. Qed.

Lemma silent_ret {A} (a : A) : silent (ret (Image:=Image) a).
Proof. now apply silent_intro. Qed.

Lemma silent_raise {A} e : silent (raise (Image:=Image) (A:=A) e).
Proof. now apply silent_intro. Qed.

Lemma silent_emit ev : silent (emit (Image:=Image) ev).
Proof. now apply silent_intro. Qed.

Lemma silent_set_attr name v : silent (set_attr (Image:=Image) name v).
Proof. now apply silent_intro. Qed.

Lemma silent_get_attr name : silent (get_attr (Image:=Image) name).
Proof.
  apply silent_intro. intros w. unfold get_attr.
  now destruct (session w !! name).
Qed.

Lemma silent_save_png v : silent (save_png Image_save_png v).
Proof.
  apply silent_intro. intros w. destruct v as [| |im]; try reflexivity.
  cbn [save_png]. now destruct (Image_save_png im).
Qed.

Lemma silent_cleaned v : silent (cleaned v).
Proof. apply silent_intro. intros w. now destruct v. Qed.

Lemma silent_if {A} (b : bool) (m1 m2 : M Image A) :
  silent m1 -> silent m2 -> silent (if b then m1 else m2).
Proof. now destruct b. Qed.

#[local] Hint Resolve silent_ret silent_raise silent_emit silent_set_attr
  silent_get_attr silent_save_png silent_cleaned : silent.

Ltac silent_tac :=
  repeat first
    [ apply silent_bind; [|intros ?]
    | apply silent_if
    | solve [auto with silent] ].

Lemma silent_init_session_state : silent (init_session_state (Image:=Image)).
Proof. apply silent_intro. intros w. now rewrite init_session_state_eq. Qed.

Lemma silent_setup_page : silent (setup_page (Image:=Image)).
Proof. unfold setup_page. silent_tac. Qed.

Lemma silent_create_clear_button env :
  silent (create_clear_button (Image:=Image) env).
Proof. unfold create_clear_button. silent_tac. Qed.

Lemma silent_upload_step env : silent (upload_step Image_open env).
Proof.
  unfold upload_step. destruct (uploaded_file env) as [f|]; [|silent_tac].
  destruct (Image_open f); silent_tac.
Qed.

Lemma silent_display_results : silent (display_results (Image:=Image)).
Proof. unfold display_results. silent_tac. Qed.

Lemma process_image_sends env image_file :
  sends (process_image (Image:=Image) env image_file)
    (fun rest => rest = [vision_request image_file]).
Proof.
  intros w. rewrite process_image_eq.
  destruct (backend env _ _); eexists; split; reflexivity.
Qed.

Lemma solve_equation_sends env latex_code :
  sends (solve_equation Image_repr env latex_code)
    (fun rest => rest = [math_request Image_repr latex_code]).
Proof.
  intros w. rewrite solve_equation_eq.
  destruct (backend env _ _); eexists; split; reflexivity.
Qed.

Lemma extract_step_sends env :
  sends (extract_step Image_save_png env) (extraction_requests env).
Proof.
  unfold extract_step.
  destruct (extract_clicked env) eqn:Hclick;
    [|eapply sends_conseq; [apply silent_ret|now left]].
  apply sends_bind_silent_l; [apply silent_get_attr| |now left].
  intros im.
  apply sends_bind_silent_l; [apply silent_save_png| |now left].
  intros png.
  eapply sends_conseq.
  - apply sends_bind_silent_r; [apply process_image_sends|].
    intros result. silent_tac.
  - intros rest ->. right. eauto.
Qed.

Lemma solve_step_sends env :
  sends (solve_step Image_repr env) (solve_requests Image_repr env).
Proof.
  intros w.
  destruct (session w !! "ocr_result") as [ocr|] eqn:Hocr.
  - destruct (truthy ocr && solve_clicked env) eqn:Hgate.
    + apply andb_true_iff in Hgate as [Htrue Hclick].
      rewrite (solve_step_eq env w ocr Hclick Hocr Htrue).
      exists [math_request Image_repr ocr]. split.
      * now destruct (backend env _ _).
      * right. eauto.
    + rewrite (solve_step_skip env w ocr Hocr Hgate).
      exists []. rewrite app_nil_r. split; [reflexivity|now left].
  - unfold solve_step. rewrite bind_get_attr_None by exact Hocr.
    exists []. rewrite app_nil_r. split; [reflexivity|now left].
Qed.

Lemma sidebar_content_sends env :
  sends (sidebar_content Image_open Image_save_png Image_repr env)
    (fun rest => exists r1 r2,
       rest = (r1 ++ r2)%list
       /\ extraction_requests env r1
       /\ solve_requests Image_repr env r2).
Proof.
  assert (Hnil : exists r1 r2 : list ModelRequest,
             [] = (r1 ++ r2)%list /\ extraction_requests env r1
             /\ solve_requests Image_repr env r2).
  { exists [], []. repeat split; now left. }
  unfold sidebar_content.
  do 6 (apply sends_bind_silent_l; [apply silent_emit|intros []|exact Hnil]).
  apply sends_bind_silent_l; [apply silent_upload_step|intros []|exact Hnil].
  apply sends_bind_silent_l; [apply silent_get_attr|intros im|exact Hnil].
  destruct (truthy im);
    [|eapply sends_conseq; [apply silent_ret|now intros rest ->]].
  apply sends_bind_silent_l; [apply silent_get_attr|intros shown|exact Hnil].
  apply sends_bind_silent_l; [apply silent_emit|intros []|exact Hnil].
  apply sends_bind; [apply extract_step_sends| |now left].
  intros []. apply solve_step_sends.
Qed.

(** X6: a run sends at most one extraction request, and only when
    Extract is clicked, followed by at most one solve request, and only
    when Solve is clicked and the text to solve is truthy; a run
    triggered by anything else sends nothing to the backend. *)
Theorem run_sends_at_most_two_requests env w :
  (exists r1 r2,
     calls (snd (main Image_open Image_save_png Image_repr env w))
     = (calls w ++ r1 ++ r2)%list
     /\ extraction_requests env r1
     /\ solve_requests Image_repr env r2)
  /\ (extract_clicked env = false -> solve_clicked env = false ->
      calls (snd (main Image_open Image_save_png Image_repr env w))
      = calls w).
Proof.
  assert (Hmain : sends (main Image_open Image_save_png Image_repr env)
            (fun rest => exists r1 r2,
               rest = (r1 ++ r2)%list
               /\ extraction_requests env r1
               /\ solve_requests Image_repr env r2)).
  { assert (Hnil : exists r1 r2 : list ModelRequest,
               [] = (r1 ++ r2)%list /\ extraction_requests env r1
               /\ solve_requests Image_repr env r2).
    { exists [], []. repeat split; now left. }
    unfold main.
    apply sends_bind_silent_l;
      [apply silent_init_session_state|intros []|exact Hnil].
    apply sends_bind_silent_l; [apply silent_setup_page|intros []|exact Hnil].
    apply sends_bind_silent_l;
      [apply silent_create_clear_button|intros []|exact Hnil].
    do 2 (apply sends_bind_silent_l;
          [apply silent_emit|intros []|exact Hnil]).
    apply sends_bind_silent_r; [apply sidebar_content_sends|].
    intros []. pose proof silent_display_results. silent_tac. }
  destruct (Hmain w) as (rest & Hrest & r1 & r2 & -> & H1 & H2).
  split; [eauto|].
  intros Hext Hsol. rewrite Hrest.
  destruct H1 as [->|[Hclick _]]; [|congruence].
  destruct H2 as [->|[Hclick _]]; [|congruence].
  now rewrite app_nil_r.
Qed.

(** *** Shapes of the stored values and the exceptions of a run *)

Lemma attr_shape_insert shape k n v ss :
  attr_shape shape k (<[n := v]> ss) =
  if decide (n = k) then shape v else attr_shape shape k ss.
Proof. unfold attr_shape. rewrite lookup_insert. now case_decide. Qed.

Lemma attr_shape_with_default shape k name ss :
  shape VNone = true ->
  attr_shape shape k (with_default name ss) = attr_shape shape k ss.
Proof.
  intros Hshape. unfold attr_shape. rewrite with_default_lookup.
  destruct (ss !! k); [reflexivity|]. now case_decide.
Qed.

Lemma well_typed_with_default name ss :
  well_typed ss = true -> well_typed (with_default name ss) = true.
Proof. unfold well_typed. now rewrite !attr_shape_with_default. Qed.

Lemma well_typed_iff ss :
  well_typed ss = true <->
  attr_shape image_or_None "uploaded_image" ss = true
  /\ attr_shape text_or_None "ocr_result" ss = true
  /\ attr_shape text_or_None "solution_result" ss = true.
Proof. unfold well_typed. rewrite !andb_true_iff. tauto. Qed.

Ltac shape_tac :=
  rewrite ?attr_shape_insert; repeat case_decide; try congruence;
  cbn [image_or_None text_or_None].

Lemma well_typed_cleared ss : well_typed (cleared ss) = true.
Proof. apply well_typed_iff. unfold cleared. repeat split; now shape_tac. Qed.

Lemma well_typed_upload ss im :
  well_typed ss = true ->
  well_typed (<["uploaded_image" := VImage im]> ss) = true.
Proof.
  rewrite !well_typed_iff. intros (H1 & H2 & H3).
  repeat split; now shape_tac.
Qed.

Lemma well_typed_extracted ss c :
  well_typed ss = true -> String.eqb c "" = false ->
  well_typed (<["solution_result" := VNone]> (<["ocr_result" := VStr c]> ss))
  = true.
Proof.
  rewrite !well_typed_iff. intros (H1 & H2 & H3) Hc.
  repeat split; shape_tac; try assumption; try reflexivity.
  now rewrite Hc.
Qed.

Lemma well_typed_solved ss c :
  well_typed ss = true -> String.eqb c "" = false ->
  well_typed (<["solution_result" := VStr c]> ss) = true.
Proof.
  rewrite !well_typed_iff. intros (H1 & H2 & H3) Hc.
  repeat split; shape_tac; try assumption. now rewrite Hc.
Qed.

Lemma initialised_insert ss k v :
  initialised ss = true -> initialised (<[k := v]> ss) = true.
Proof.
  intros Hinit. apply initialised_intro. intros name Hname.
  rewrite lookup_insert. case_decide; [eauto|].
  now apply initialised_lookup.
Qed.

Lemma initialised_with_defaults ss :
  initialised (with_default "solution_result"
                 (with_default "uploaded_image"
                    (with_default "ocr_result" ss))) = true.
Proof.
  apply initialised_intro. intros name Hname.
  unfold attributes in Hname. rewrite !elem_of_cons, elem_of_nil in Hname.
  rewrite !with_default_lookup.
  destruct (ss !! name); [eauto|].
  destruct Hname as [->|[->|[->|[]]]]; repeat case_decide; eauto;
    congruence.
Qed.

Lemma typed_image ss v :
  well_typed ss = true -> ss !! "uploaded_image" = Some v ->
  truthy v = true -> exists im, v = VImage im.
Proof.
  rewrite well_typed_iff. unfold attr_shape. intros (H1 & _ & _) Hv Htrue.
  rewrite Hv in H1. destruct v; try discriminate. eauto.
Qed.

Lemma typed_text name ss v :
  attr_shape text_or_None name ss = true -> ss !! name = Some v ->
  truthy v = true -> exists s, v = VStr s.
Proof.
  unfold attr_shape. intros H1 Hv Htrue.
  rewrite Hv in H1. destruct v; try discriminate. eauto.
Qed.

Abbreviation ready w :=
  (initialised (session w) = true /\ well_typed (session w) = true).

Lemma extract_step_ready env w im :
  ready w ->
  session w !! "uploaded_image" = Some (VImage im) ->
  wpx (extract_step Image_save_png env)
    (fun _ w' => ready w')
    (fun e w' => ready w' /\ e = ImageSaveError
                 /\ extract_clicked env = true) w.
Proof.
  intros [Hinit Htyped] Him. unfold wpx.
  destruct (extract_clicked env) eqn:Hclick.
  - destruct (Image_save_png im) as [png|] eqn:Hpng.
    + rewrite (extract_step_eq env w im png Hclick Him Hpng).
      destruct (backend env _ _) as [c|msg]; cbn [session]; [|now split].
      destruct (String.eqb c "") eqn:Hc; [now split|].
      split; [now do 2 apply initialised_insert|].
      now apply well_typed_extracted.
    + unfold extract_step. rewrite Hclick.
      erewrite bind_get_attr by exact Him.
      unfold bind. cbn [save_png]. rewrite Hpng. cbn [raise].
      now repeat split.
  - unfold extract_step. rewrite Hclick. now split.
Qed.

Lemma solve_step_ready env w :
  ready w ->
  wpx (solve_step Image_repr env) (fun _ w' => ready w')
    (fun _ _ => False) w.
Proof.
  intros [Hinit Htyped]. unfold wpx.
  destruct (initialised_lookup _ "ocr_result" Hinit) as [ocr Hocr];
    [in_attributes_top|].
  destruct (truthy ocr && solve_clicked env) eqn:Hgate.
  - apply andb_true_iff in Hgate as [Htrue Hclick].
    rewrite (solve_step_eq env w ocr Hclick Hocr Htrue).
    destruct (backend env _ _) as [c|msg]; cbn [session]; [|now split].
    destruct (String.eqb c "") eqn:Hc; [now split|].
    split; [now apply initialised_insert|now apply well_typed_solved].
  - rewrite (solve_step_skip env w ocr Hocr Hgate). now split.
Qed.

Lemma stages_ready env w im :
  ready w ->
  session w !! "uploaded_image" = Some (VImage im) ->
  wpx (bind (extract_step Image_save_png env)
         (fun _ => solve_step Image_repr env))
    (fun _ w' => ready w')
    (fun e w' => ready w' /\ e = ImageSaveError
                 /\ extract_clicked env = true) w.
Proof.
  intros Hready Him.
  pose proof (extract_step_ready env w im Hready Him) as Hx.
  unfold wpx, bind in *.
  destruct (extract_step Image_save_png env w) as [[[]|e] w1];
    [|assumption].
  pose proof (solve_step_ready env w1 Hx) as Hs. unfold wpx in Hs.
  now destruct (solve_step Image_repr env w1) as [[[]|e] w2].
Qed.

(** The sidebar when no file is uploaded and an image is stored. *)
Lemma sidebar_content_loaded env w im :
  uploaded_file env = None ->
  session w !! "uploaded_image" = Some (VImage im) ->
  exists ui',
    sidebar_content Image_open Image_save_png Image_repr env w
    = bind (extract_step Image_save_png env)
        (fun _ => solve_step Image_repr env)
        {| session := session w; calls := calls w; ui := ui' |}.
Proof.
  intros Hf Him. unfold sidebar_content, upload_step. rewrite Hf.
  do 8 run_step. cbn [truthy]. do 2 run_step. eexists. reflexivity.
Qed.

(** The sidebar when the uploaded file cannot be opened. *)
Lemma sidebar_content_bad_upload env w f :
  uploaded_file env = Some f ->
  Image_open f = None ->
  exists ui',
    sidebar_content Image_open Image_save_png Image_repr env w
    = (Raise ImageOpenError,
       {| session := session w; calls := calls w; ui := ui' |}).
Proof.
  intros Hf Hopen. unfold sidebar_content, upload_step. rewrite Hf, Hopen.
  do 6 run_step. unfold bind, raise. eexists. reflexivity.
Qed.

Lemma sidebar_content_ready env w :
  ready w ->
  wpx (sidebar_content Image_open Image_save_png Image_repr env)
    (fun _ w' => ready w')
    (fun e w' => ready w' /\ may_escape Image_open env e = true
                 /\ e <> RerunException) w.
Proof.
  intros [Hinit Htyped].
  assert (Htail : forall w1 im,
            ready w1 ->
            session w1 !! "uploaded_image" = Some (VImage im) ->
            wpx (bind (extract_step Image_save_png env)
                   (fun _ => solve_step Image_repr env))
              (fun _ w' => ready w')
              (fun e w' => ready w' /\ may_escape Image_open env e = true
                           /\ e <> RerunException) w1).
  { intros w1 im Hready Him.
    pose proof (stages_ready env w1 im Hready Him) as Ht.
    unfold wpx in *.
    destruct (bind _ _ w1) as [[[]|e] w2]; [assumption|].
    destruct Ht as (Hr & -> & Hclick). now repeat split. }
  destruct (uploaded_file env) as [f|] eqn:Hf.
  - destruct (Image_open f) as [im|] eqn:Hopen.
    + destruct (sidebar_content_upload env w f im Hf Hopen) as [ui' Heq].
      unfold wpx. rewrite Heq. apply (Htail _ im).
      * cbn [session]. split; [now apply initialised_insert|].
        now apply well_typed_upload.
      * apply lookup_insert_eq.
    + destruct (sidebar_content_bad_upload env w f Hf Hopen) as [ui' Heq].
      unfold wpx. rewrite Heq. cbn [session may_escape].
      rewrite Hf, Hopen. now repeat split.
  - destruct (initialised_lookup _ "uploaded_image" Hinit) as [v Hv];
      [in_attributes_top|].
    destruct (truthy v) eqn:Htrue.
    + destruct (typed_image _ v Htyped Hv Htrue) as [im ->].
      destruct (sidebar_content_loaded env w im Hf Hv) as [ui' Heq].
      unfold wpx. rewrite Heq. now apply (Htail _ im).
    + destruct (sidebar_content_no_image env w v Hf Hv Htrue) as [ui' Heq].
      unfold wpx. rewrite Heq. now split.
Qed.

Lemma display_results_returns w :
  ready w ->
  exists ui',
    display_results w
    = (Ret tt, {| session := session w; calls := calls w; ui := ui' |}).
Proof.
  intros [Hinit Htyped].
  destruct (initialised_lookup _ "ocr_result" Hinit) as [ocr Hocr];
    [in_attributes_top|].
  destruct (initialised_lookup _ "solution_result" Hinit) as [sol Hsol];
    [in_attributes_top|].
  apply well_typed_iff in Htyped as (_ & Tocr & _).
  unfold display_results. run_step.
  destruct (truthy ocr) eqn:Htrue.
  - destruct (typed_text _ _ ocr Tocr Hocr Htrue) as [s ->].
    do 5 run_step. cbn [cleaned]. do 3 run_step.
    destruct (truthy sol).
    + do 4 run_step. unfold emit. eexists. reflexivity.
    + unfold ret. eexists. reflexivity.
  - unfold emit. eexists. reflexivity.
Qed.

Lemma main_ready env w :
  well_typed (session w) = true ->
  wpx (main Image_open Image_save_png Image_repr env)
    (fun _ w' => ready w' /\ clear_clicked env = false)
    (fun e w' => ready w' /\ may_escape Image_open env e = true) w.
Proof.
  intros Htyped. unfold wpx, main.
  unfold bind at 1. rewrite init_session_state_eq.
  unfold bind at 1. unfold setup_page at 1. rewrite !bind_emit.
  unfold emit at 1. cbn [session calls ui].
  set (ss1 := with_default "solution_result" _).
  assert (Hinit1 : initialised ss1 = true)
    by apply initialised_with_defaults.
  assert (Htyped1 : well_typed ss1 = true)
    by now do 3 apply well_typed_with_default.
  clearbody ss1.
  destruct (clear_clicked env) eqn:Hclear.
  - unfold bind at 1. rewrite (create_clear_button_eq env _ Hclear).
    cbn [session may_escape]. split; [|assumption]. split.
    + unfold cleared. now do 3 apply initialised_insert.
    + apply well_typed_cleared.
  - unfold bind at 1. unfold create_clear_button at 1. rewrite Hclear.
    cbn [ret]. do 2 run_step.
    match goal with
    | |- context [bind (sidebar_content _ _ _ env) ?k ?w1] =>
        pose proof (sidebar_content_ready env w1 (conj Hinit1 Htyped1))
          as Hside;
        unfold wpx in Hside; unfold bind at 1;
        destruct (sidebar_content Image_open Image_save_png Image_repr
                    env w1) as [[[]|e] w2]
    end.
    + destruct (display_results_returns w2 Hside) as [ui' Hdisp].
      unfold bind at 1. rewrite Hdisp. run_step. unfold emit.
      cbn [session]. now split.
    + destruct Hside as (Hr & Hesc & _). now split.
Qed.

(** X7: the session states reachable by runs of the script are well
    typed: uploaded_image holds [None] or an image, ocr_result and
    solution_result hold [None] or a non-empty string; and after the
    first run all three attributes exist. *)
Theorem reachable_well_typed (ss : gmap string (Value Image)) :
  reachable Image_open Image_save_png Image_repr ss ->
  well_typed ss = true /\ (ss = ∅ \/ initialised ss = true).
Proof.
  induction 1 as [|env ss Hreach [IH _]].
  - split; [reflexivity|now left].
  - unfold run. pose proof (main_ready env (start ss) IH) as Hmain.
    unfold wpx in Hmain.
    destruct (main _ _ _ env (start ss)) as [[[]|e] w']; cbn [snd];
      destruct Hmain as [[Hinit Htyped] _]; auto.
Qed.


(** *** Whole runs *)

Lemma session_bind_keeps {A B} (m : M Image A) (k : A -> M Image B) w :
  (forall a, keeps_session (k a)) ->
  session (snd (bind m k w)) = session (snd (m w)).
Proof.
  intros Hk. unfold bind. destruct (m w) as [[a|e] w']; [|reflexivity].
  apply Hk.
Qed.

(** A run on an initialised session with Clear not clicked comes down to
    the sidebar. *)
Lemma run_sidebar env ss :
  initialised ss = true ->
  clear_clicked env = false ->
  exists ui0,
    main Image_open Image_save_png Image_repr env (start ss)
    = bind (sidebar_content Image_open Image_save_png Image_repr env)
        (fun _ =>
           bind display_results
             (fun _ =>
                bind (emit (UiMarkdown "---"))
                  (fun _ =>
                     emit (UiMarkdown ("Vision model: " +:+ VISION_MODEL
                                       +:+ " | Math model: " +:+ MATH_MODEL)))))
        {| session := ss; calls := []; ui := ui0 |}.
Proof.
  intros Hinit Hclear. unfold main.
  unfold bind at 1. rewrite (init_session_state_present (start ss) Hinit).
  unfold bind at 1. unfold setup_page at 1. rewrite !bind_emit.
  unfold emit at 1. cbn [session calls ui start].
  unfold bind at 1. unfold create_clear_button at 1. rewrite Hclear.
  cbn [ret]. do 2 run_step. eexists. reflexivity.
Qed.

Lemma run_sidebar_session env ss :
  initialised ss = true ->
  clear_clicked env = false ->
  exists ui0,
    run Image_open Image_save_png Image_repr env ss
    = session (snd (sidebar_content Image_open Image_save_png Image_repr env
                      {| session := ss; calls := []; ui := ui0 |})).
Proof.
  intros Hinit Hclear.
  destruct (run_sidebar env ss Hinit Hclear) as [ui0 Heq].
  exists ui0. unfold run. rewrite Heq.
  apply session_bind_keeps. intros [].
  apply keeps_session_bind; [apply keeps_session_display_results|].
  intros []. keeps_session_tac.
Qed.

(** X9: a click on Clear ends the run right after the three
    assignments, whatever the other widgets hold: the run raises the
    rerun request, no uploaded file is loaded, no request is sent and
    nothing beyond the page title is rendered. *)
Theorem clear_ends_the_run env ss :
  clear_clicked env = true ->
  main Image_open Image_save_png Image_repr env (start ss)
  = (Raise RerunException,
     {| session := cleared (with_default "solution_result"
                              (with_default "uploaded_image"
                                 (with_default "ocr_result" ss)));
        calls := [];
        ui := [UiPageConfig "LaTeX OCR & Solver" "wide" "expanded";
               UiTitle "LaTeX OCR & Solver"] |}).
Proof.
  intros Hclear. unfold main.
  unfold bind at 1. rewrite init_session_state_eq.
  unfold bind at 1. unfold setup_page at 1. rewrite !bind_emit.
  unfold emit at 1. cbn [session calls ui start].
  unfold bind at 1. now rewrite (create_clear_button_eq env _ Hclear).
Qed.

(** X10: when the uploaded file cannot be opened (and Clear is not
    clicked) the run stops with the image library's error before either
    inference stage: no request is sent, and the session is the one
    [init_session_state] left, so every stored value is kept. *)
Theorem undecodable_upload_stops_the_run env ss f :
  clear_clicked env = false ->
  uploaded_file env = Some f ->
  Image_open f = None ->
  let r := main Image_open Image_save_png Image_repr env (start ss) in
  fst r = Raise ImageOpenError
  /\ calls (snd r) = []
  /\ session (snd r)
     = with_default "solution_result"
         (with_default "uploaded_image" (with_default "ocr_result" ss))
  /\ (forall name v, ss !! name = Some v ->
                     session (snd r) !! name = Some v).
Proof.
  intros Hclear Hf Hopen r.
  assert (Hmain : exists ui',
            main Image_open Image_save_png Image_repr env (start ss)
            = (Raise ImageOpenError,
               {| session := with_default "solution_result"
                               (with_default "uploaded_image"
                                  (with_default "ocr_result" ss));
                  calls := []; ui := ui' |})).
  { unfold main.
    unfold bind at 1. rewrite init_session_state_eq.
    unfold bind at 1. unfold setup_page at 1. rewrite !bind_emit.
    unfold emit at 1. cbn [session calls ui start].
    unfold bind at 1. unfold create_clear_button at 1. rewrite Hclear.
    cbn [ret]. do 2 run_step.
    match goal with
    | |- context [bind (sidebar_content _ _ _ env) ?k ?w1] =>
        destruct (sidebar_content_bad_upload env w1 f Hf Hopen)
          as [ui' Heq];
        unfold bind at 1; rewrite Heq
    end.
    cbn [session calls]. eexists. reflexivity. }
  destruct Hmain as [ui' Hmain]. subst r. rewrite Hmain.
  cbn [fst snd session calls].
  do 3 (split; [reflexivity|]).
  intros name v Hv. now do 3 apply with_default_keeps_value.
Qed.

Lemma with_backend_same env : with_backend env (backend env) = env.
Proof. now destruct env. Qed.

(** X11: a run in which nothing is uploaded or cleared and every reply
    of the backend is a failure or an empty string leaves an initialised
    session exactly as it was, whichever buttons are clicked. *)
Theorem failed_inference_run_is_noop env ss :
  initialised ss = true ->
  clear_clicked env = false ->
  uploaded_file env = None ->
  (forall n req, falsy_reply (backend env n req) = true) ->
  run Image_open Image_save_png Image_repr env ss = ss.
Proof.
  intros Hinit Hclear Hf Hfalsy.
  assert (Hanswer : forall n req,
            backend env n req = ChatContent ""
            \/ exists msg, backend env n req = ChatRaises msg).
  { intros n req. specialize (Hfalsy n req).
    destruct (backend env n req) as [c|msg]; [left|eauto].
    cbn [falsy_reply] in Hfalsy. apply String.eqb_eq in Hfalsy.
    now subst. }
  assert (Hext : keeps_session (extract_step Image_save_png env)).
  { intros w. rewrite <- (with_backend_same env) at 1.
    apply extract_step_falsy. exact Hanswer. }
  assert (Hsol : keeps_session (solve_step Image_repr env)).
  { intros w. rewrite <- (with_backend_same env) at 1.
    apply solve_step_falsy. exact Hanswer. }
  destruct (run_sidebar_session env ss Hinit Hclear) as [ui0 ->].
  assert (Hside : keeps_session
                    (sidebar_content Image_open Image_save_png Image_repr env)).
  { unfold sidebar_content, upload_step. rewrite Hf.
    do 8 (apply keeps_session_bind; [solve [auto with keeps]|intros ?]).
    apply keeps_session_if; [|solve [auto with keeps]].
    do 2 (apply keeps_session_bind; [solve [auto with keeps]|intros ?]).
    apply keeps_session_bind; [exact Hext|intros ?; exact Hsol]. }
  now rewrite Hside.
Qed.

Lemma run_stages env ss im :
  initialised ss = true ->
  clear_clicked env = false ->
  uploaded_file env = None ->
  ss !! "uploaded_image" = Some (VImage im) ->
  exists ui0,
    run Image_open Image_save_png Image_repr env ss
    = session (snd (bind (extract_step Image_save_png env)
                      (fun _ => solve_step Image_repr env)
                      {| session := ss; calls := []; ui := ui0 |})).
Proof.
  intros Hinit Hclear Hf Him.
  destruct (run_sidebar_session env ss Hinit Hclear) as [ui0 ->].
  destruct (sidebar_content_loaded env
              {| session := ss; calls := []; ui := ui0 |} im Hf Him)
    as [ui1 ->].
  eexists. reflexivity.
Qed.

(** X12: with an image stored, a run in which Extract is clicked and
    the vision model replies a non-empty text [t], followed by a run in
    which Solve is clicked and the math model, asked about [t], replies
    a non-empty text [u], leaves ocr_result = [t] and solution_result =
    [u] with the image in place: the Solved phase. *)
Theorem extract_then_solve env1 env2 ss im png t u :
  initialised ss = true ->
  ss !! "uploaded_image" = Some (VImage im) ->
  Image_save_png im = Some png ->
  clear_clicked env1 = false -> uploaded_file env1 = None ->
  extract_clicked env1 = true -> solve_clicked env1 = false ->
  backend env1 0 (vision_request png) = ChatContent t -> t <> "" ->
  clear_clicked env2 = false -> uploaded_file env2 = None ->
  extract_clicked env2 = false -> solve_clicked env2 = true ->
  backend env2 0 (math_request Image_repr (VStr t)) = ChatContent u ->
  u <> "" ->
  let ss2 := run Image_open Image_save_png Image_repr env2
               (run Image_open Image_save_png Image_repr env1 ss) in
  ss2 = <["solution_result" := VStr u]> (<["ocr_result" := VStr t]> ss)
  /\ ss2 !! "uploaded_image" = Some (VImage im)
  /\ phase_of ss2 = Solved.
Proof.
  intros Hinit Him Hpng Hclear1 Hf1 Hext1 Hsol1 Hreply1 Ht
         Hclear2 Hf2 Hext2 Hsol2 Hreply2 Hu ss2.
  apply String.eqb_neq in Ht, Hu.
  assert (Hrun1 : run Image_open Image_save_png Image_repr env1 ss
                  = <["solution_result" := VNone]>
                      (<["ocr_result" := VStr t]> ss)).
  { destruct (run_stages env1 ss im Hinit Hclear1 Hf1 Him) as [ui0 ->].
    unfold bind.
    rewrite (extract_step_eq env1
               {| session := ss; calls := []; ui := ui0 |}
               im png Hext1 Him Hpng).
    cbn [calls length]. rewrite Hreply1, Ht.
    erewrite solve_step_skip;
      [reflexivity
      |cbn [session];
       rewrite lookup_insert_ne by done; apply lookup_insert_eq
      |rewrite Hsol1; apply andb_false_r]. }
  assert (Hrun2 : ss2 = <["solution_result" := VStr u]>
                          (<["ocr_result" := VStr t]> ss)).
  { subst ss2. rewrite Hrun1.
    edestruct (run_stages env2
                 (<["solution_result" := VNone]>
                    (<["ocr_result" := VStr t]> ss)) im) as [ui0 ->];
      try assumption.
    - now do 2 apply initialised_insert.
    - now rewrite !lookup_insert_ne by done.
    - unfold bind. unfold extract_step at 1. rewrite Hext2. cbn [ret].
      erewrite solve_step_eq;
        [
        |exact Hsol2
        |cbn [session];
         rewrite lookup_insert_ne by done; apply lookup_insert_eq
        |cbn [truthy]; now rewrite Ht].
      cbn [calls length]. rewrite Hreply2, Hu. cbn [snd session].
      apply insert_insert_eq. }
  split; [exact Hrun2|]. rewrite Hrun2. split.
  - now rewrite !lookup_insert_ne by done.
  - unfold phase_of, is_set. now rewrite lookup_insert_eq.
Qed.

(** *** What is rendered *)

(** X13: the results area shows a solution only together with an
    extraction.  When ocr_result is [None] or empty only the hint is
    rendered, even if a solution is stored; when both are non-empty
    strings the extraction is rendered as code and, cleaned, as LaTeX,
    and the solution as code and as LaTeX verbatim, without cleaning. *)
Theorem display_results_renders w :
  (forall ocr,
     session w !! "ocr_result" = Some ocr -> truthy ocr = false ->
     display_results w
     = (Ret tt,
        {| session := session w; calls := calls w;
           ui := ui w ++ [UiInfo "Upload an image and click 'Extract LaTeX code' to see the results."] |}))
  /\ (forall s u,
        session w !! "ocr_result" = Some (VStr s) -> s <> "" ->
        session w !! "solution_result" = Some (VStr u) -> u <> "" ->
        display_results w
        = (Ret tt,
           {| session := session w; calls := calls w;
              ui := ui w ++ [UiMarkdown "### LaTeX Code";
                             UiCode (VStr s) "latex";
                             UiMarkdown "### LaTeX Rendered";
                             UiLatex (VStr (cleaned_latex s));
                             UiMarkdown "### Solution";
                             UiCode (VStr u) "latex";
                             UiLatex (VStr u)] |})).
Proof.
  split.
  - intros ocr Hocr Hfalse. unfold display_results. run_step.
    now rewrite Hfalse.
  - intros s u Hocr Hs Hsol Hu. apply String.eqb_neq in Hs, Hu.
    unfold display_results. run_step. cbn [truthy]. rewrite Hs.
    cbn [negb]. do 5 run_step. cbn [cleaned]. do 3 run_step.
    cbn [truthy]. rewrite Hu. cbn [negb]. do 4 run_step.
    unfold emit. cbn [session calls ui].
    rewrite <- !app_assoc. reflexivity.
Qed.

(** A run with Clear not clicked comes down to the sidebar on the
    initialised session. *)
Lemma run_sidebar_session_defaults env ss :
  clear_clicked env = false ->
  exists ui0,
    run Image_open Image_save_png Image_repr env ss
    = session
        (snd (sidebar_content Image_open Image_save_png Image_repr env
                {| session := with_default "solution_result"
                                (with_default "uploaded_image"
                                   (with_default "ocr_result" ss));
                   calls := []; ui := ui0 |})).
Proof.
  intros Hclear. unfold run, main.
  unfold bind at 1. rewrite init_session_state_eq.
  unfold bind at 1. unfold setup_page at 1. rewrite !bind_emit.
  unfold emit at 1. cbn [session calls ui start].
  unfold bind at 1. unfold create_clear_button at 1. rewrite Hclear.
  cbn [ret]. do 2 run_step.
  eexists. apply session_bind_keeps. intros [].
  apply keeps_session_bind; [apply keeps_session_display_results|].
  intros []. keeps_session_tac.
Qed.

(** X14: in one run, from any session, uploading a file the image
    library can open and clicking Extract stores the decoded image, stores
    the non-empty reply [t] of the vision model (asked about the PNG
    encoding of that image) in ocr_result and resets solution_result:
    the run ends in the Extracted phase. *)
Theorem upload_and_extract env ss f im png t :
  clear_clicked env = false ->
  uploaded_file env = Some f ->
  Image_open f = Some im ->
  Image_save_png im = Some png ->
  extract_clicked env = true ->
  solve_clicked env = false ->
  backend env 0 (vision_request png) = ChatContent t ->
  t <> "" ->
  let ss1 := run Image_open Image_save_png Image_repr env ss in
  ss1 !! "uploaded_image" = Some (VImage im)
  /\ ss1 !! "ocr_result" = Some (VStr t)
  /\ ss1 !! "solution_result" = Some VNone
  /\ phase_of ss1 = Extracted.
Proof.
  intros Hclear Hf Hopen Hpng Hext Hsol Hreply Ht ss1.
  apply String.eqb_neq in Ht.
  assert (Hrun : exists ss0,
            ss1 = <["solution_result" := VNone]>
                    (<["ocr_result" := VStr t]>
                       (<["uploaded_image" := VImage im]> ss0))).
  { subst ss1.
    destruct (run_sidebar_session_defaults env ss Hclear) as [ui0 ->].
    match goal with
    | |- context [sidebar_content _ _ _ env ?w0] =>
        destruct (sidebar_content_upload env w0 f im Hf Hopen) as [ui1 ->]
    end.
    cbn [session calls]. unfold bind.
    match goal with
    | |- context [extract_step Image_save_png env ?w1] =>
        rewrite (extract_step_eq env w1 im png Hext
                   (lookup_insert_eq _ _ _) Hpng)
    end.
    cbn [calls length]. rewrite Hreply, Ht.
    erewrite solve_step_skip;
      [eexists; reflexivity
      |cbn [session];
       rewrite lookup_insert_ne by done; apply lookup_insert_eq
      |rewrite Hsol; apply andb_false_r]. }
  destruct Hrun as [ss0 ->].
  split; [rewrite !lookup_insert_ne by done; apply lookup_insert_eq|].
  split; [rewrite lookup_insert_ne by done; apply lookup_insert_eq|].
  split; [apply lookup_insert_eq|].
  unfold phase_of, is_set. rewrite lookup_insert_eq. cbn [not_None].
  now rewrite lookup_insert_ne, lookup_insert_eq.
Qed.

End Properties.

(** ** The script on concrete inputs *)

Section Scenarios.

Import Toy.

Abbreviation toy_run :=
  (run Toy.Image_open Toy.Image_save_png Toy.Image_repr).

(** Scenarios 1 and 2: upload and extract in a brand-new session. *)
Example scenario_extract :
  toy_run env_extract ∅ = extracted_session
  /\ phase_of (toy_run env_extract ∅) = Extracted.
Proof. split; vm_compute; reflexivity. Qed.

(** Scenario 3: solve after extraction. *)
Example scenario_solve :
  toy_run env_solve extracted_session = solved_session
  /\ phase_of solved_session = Solved.
Proof. split; vm_compute; reflexivity. Qed.

(** Scenario 4: clear from Solved. *)
Example scenario_clear :
  phase_of (toy_run env_clear solved_session) = Empty.
Proof. vm_compute. reflexivity. Qed.

(** Scenario 5: a failed extraction leaves ImageLoaded. *)
Example scenario_extract_failed :
  toy_run env_failing loaded_session = loaded_session.
Proof. vm_compute. reflexivity. Qed.

(** C1 as stated fails: from a Solved session, a run that uploads another
    image stores the new image and still holds the old extraction and
    the old solution. *)
Lemma load_image_keeps_old_results :
  let w' := snd (upload_step Toy.Image_open env_upload (start solved_session)) in
  session w' !! "uploaded_image" = Some (VImage [Byte.x0c])
  /\ session w' !! "ocr_result" = Some (VStr "x+1=2")
  /\ session w' !! "solution_result" = Some (VStr "x=1")
  /\ session w' !! "ocr_result" <> Some VNone
  /\ toy_run env_upload solved_session !! "ocr_result" = Some (VStr "x+1=2")
  /\ toy_run env_upload solved_session !! "solution_result"
     = Some (VStr "x=1").
Proof. repeat split; try (vm_compute; reflexivity). discriminate. Qed.

Lemma upload_step_keeps_results_witness :
  uploaded_file env_upload = Some other_file
  /\ Toy.Image_open other_file = Some [Byte.x0c]
  /\ session (snd (upload_step Toy.Image_open env_upload
                     (start solved_session))) !! "ocr_result"
     = session (start solved_session) !! "ocr_result".
Proof.
  split; [reflexivity|]. split; [reflexivity|].
  apply (upload_step_keeps_results Toy.Image_open env_upload
           (start solved_session) other_file [Byte.x0c]); reflexivity.
Defined.

Lemma reachable_ordered_witness :
  reachable Toy.Image_open Toy.Image_save_png Toy.Image_repr
    (toy_run env_solve (toy_run env_extract ∅))
  /\ ordered (toy_run env_solve (toy_run env_extract ∅)).
Proof.
  split.
  - apply reach_run, reach_run, reach_init.
  - apply (reachable_ordered Toy.Image_open Toy.Image_save_png Toy.Image_repr).
    apply reach_run, reach_run, reach_init.
Defined.

(** C3 as stated fails: nothing is rejected.  Called with [None],
    [solve_equation] formats it into the prompt, sends the request and
    returns the reply; and a run with Solve clicked while ocr_result is
    [None] finishes normally, without any error. *)
Lemma solve_without_extraction_not_rejected :
  is_set "ocr_result" loaded_session = false
  /\ solve_equation Toy.Image_repr env_solve VNone (start loaded_session)
     = (Ret (VStr "x=1"),
        {| session := loaded_session;
           calls := [math_request Toy.Image_repr VNone];
           ui := [] |})
  /\ solve_prompt Toy.Image_repr VNone
     = "Реши уравнение None и представь ответ в LaTeX."
  /\ fst (sidebar_content Toy.Image_open Toy.Image_save_png Toy.Image_repr
            env_solve (start loaded_session)) = Ret tt
  /\ fst (main Toy.Image_open Toy.Image_save_png Toy.Image_repr
            env_solve (start loaded_session)) = Ret tt.
Proof. repeat split; vm_compute; reflexivity. Qed.

Lemma stages_gated_not_rejected_witness :
  session (start loaded_session) !! "ocr_result" = Some VNone
  /\ truthy (VNone : Value Toy.Image) = false
  /\ solve_step Toy.Image_repr env_solve (start loaded_session)
     = (Ret tt, start loaded_session).
Proof.
  split; [reflexivity|]. split; [reflexivity|].
  apply (proj1 (stages_gated_not_rejected Toy.Image_open Toy.Image_save_png
                  Toy.Image_repr env_solve (start loaded_session)) VNone);
    reflexivity.
Defined.

Lemma inference_failure_recoverable_witness :
  extract_clicked env_failing = true
  /\ session (start solved_session) !! "uploaded_image"
     = Some (VImage [Byte.x0a; Byte.x0b])
  /\ Toy.Image_save_png [Byte.x0a; Byte.x0b]
     = Some [Byte.x01; Byte.x0a; Byte.x0b]
  /\ backend env_failing 0 (vision_request [Byte.x01; Byte.x0a; Byte.x0b])
     = ChatRaises "connection refused"
  /\ extract_step Toy.Image_save_png env_failing (start solved_session)
     = (Ret tt,
        {| session := solved_session;
           calls := [vision_request [Byte.x01; Byte.x0a; Byte.x0b]];
           ui := [UiError "Error processing image: connection refused"] |}).
Proof.
  do 4 (split; [reflexivity|]).
  apply (proj1 (proj2 (proj2
           (inference_failure_recoverable Toy.Image_save_png Toy.Image_repr
              env_failing (start solved_session) "connection refused")))
           [Byte.x0a; Byte.x0b] [Byte.x01; Byte.x0a; Byte.x0b]);
    reflexivity.
Defined.

Lemma extract_succeeded_witness :
  extract_clicked env_reextract = true
  /\ session (start solved_session) !! "uploaded_image"
     = Some (VImage [Byte.x0a; Byte.x0b])
  /\ Toy.Image_save_png [Byte.x0a; Byte.x0b]
     = Some [Byte.x01; Byte.x0a; Byte.x0b]
  /\ backend env_reextract 0 (vision_request [Byte.x01; Byte.x0a; Byte.x0b])
     = ChatContent "y=3"
  /\ "y=3" <> ""
  /\ session (snd (extract_step Toy.Image_save_png env_reextract
                     (start solved_session))) !! "ocr_result"
     = Some (VStr "y=3")
  /\ session (snd (extract_step Toy.Image_save_png env_reextract
                     (start solved_session))) !! "solution_result"
     = Some VNone.
Proof.
  do 4 (split; [reflexivity|]). split; [discriminate|].
  destruct (extract_succeeded Toy.Image_save_png env_reextract
              (start solved_session) [Byte.x0a; Byte.x0b]
              [Byte.x01; Byte.x0a; Byte.x0b] "y=3")
    as (_ & _ & Hocr & Hsol & _); try reflexivity; [discriminate|].
  split; assumption.
Defined.

Lemma display_results_keeps_state_witness :
  session (start solved_session) !! "ocr_result" = Some (VStr "x+1=2")
  /\ "x+1=2" <> ""
  /\ session (snd (display_results (start solved_session))) !! "ocr_result"
     = Some (VStr "x+1=2").
Proof.
  split; [reflexivity|]. split; [discriminate|].
  apply (proj2 (display_results_keeps_state (start solved_session)) "x+1=2");
    [reflexivity|discriminate].
Defined.

Lemma clear_resets_all_witness :
  clear_clicked env_clear = true
  /\ session (snd (create_clear_button env_clear (start solved_session)))
       !! "ocr_result" = Some VNone.
Proof.
  split; [reflexivity|].
  destruct (clear_resets_all Toy.Image_open Toy.Image_save_png Toy.Image_repr
              env_clear (start solved_session)) as (_ & Hocr & _);
    [reflexivity|exact Hocr].
Defined.

Lemma empty_reply_like_failure_witness :
  extract_clicked env_empty = true
  /\ session (start extracted_session) !! "uploaded_image"
     = Some (VImage [Byte.x0a; Byte.x0b])
  /\ Toy.Image_save_png [Byte.x0a; Byte.x0b]
     = Some [Byte.x01; Byte.x0a; Byte.x0b]
  /\ backend env_empty 0 (vision_request [Byte.x01; Byte.x0a; Byte.x0b])
     = ChatContent ""
  /\ extract_step Toy.Image_save_png env_empty (start extracted_session)
     = (Ret tt,
        {| session := extracted_session;
           calls := [vision_request [Byte.x01; Byte.x0a; Byte.x0b]];
           ui := [] |}).
Proof.
  do 4 (split; [reflexivity|]).
  apply (proj1 (empty_reply_like_failure Toy.Image_save_png Toy.Image_repr
                  env_empty (start extracted_session))
           [Byte.x0a; Byte.x0b] [Byte.x01; Byte.x0a; Byte.x0b]);
    reflexivity.
Defined.

Lemma extraction_sends_png_witness :
  uploaded_file env_extract = Some jpg_file
  /\ Toy.Image_open jpg_file = Some [Byte.x0a; Byte.x0b]
  /\ Toy.Image_save_png [Byte.x0a; Byte.x0b]
     = Some [Byte.x01; Byte.x0a; Byte.x0b]
  /\ extract_clicked env_extract = true
  /\ [Byte.x01; Byte.x0a; Byte.x0b] <> jpg_file
  /\ exists rest,
       calls (snd (sidebar_content Toy.Image_open Toy.Image_save_png
                     Toy.Image_repr env_extract (start ∅)))
       = vision_request [Byte.x01; Byte.x0a; Byte.x0b] :: rest.
Proof.
  do 4 (split; [reflexivity|]). split; [discriminate|].
  apply (proj1 (proj2 (extraction_sends_png Toy.Image_open Toy.Image_save_png
                         Toy.Image_repr env_extract (start ∅)))
           jpg_file [Byte.x0a; Byte.x0b] [Byte.x01; Byte.x0a; Byte.x0b]);
    reflexivity.
Defined.

End Scenarios.

(** ** Further properties of the delimiter-stripping transform *)

Lemma remove2_single a b c : remove2 a b (String c "") = String c "".
Proof. reflexivity. Qed.

Lemma append_cons c s t : String c s +:+ t = String c (s +:+ t).
Proof. reflexivity. Qed.

Lemma append_empty_l t : "" +:+ t = t.
Proof. reflexivity. Qed.

Lemma append_empty_r s : s +:+ "" = s.
Proof. induction s as [|c s IH]; [reflexivity|]. now rewrite append_cons, IH. Qed.

(** The scan distributes over a concatenation whose right part does not
    begin with the token's second character: no token then straddles the
    seam. *)
Lemma remove2_app a b s t :
  match t with String c _ => c <> b | EmptyString => True end ->
  remove2 a b (s +:+ t) = remove2 a b s +:+ remove2 a b t.
Proof.
  intros Ht.
  induction s as [|c|c1 c2 rest IHrest IHtl] using string_ind2.
  - reflexivity.
  - rewrite remove2_single, !append_cons, !append_empty_l.
    destruct t as [|c2 t']; [reflexivity|].
    rewrite remove2_cons2.
    replace (Ascii.eqb c2 b) with false
      by (symmetry; now apply Ascii.eqb_neq).
    now rewrite andb_false_r.
  - rewrite !append_cons, !remove2_cons2.
    destruct (Ascii.eqb c1 a && Ascii.eqb c2 b); [exact IHrest|].
    rewrite <- append_cons, IHtl. now rewrite append_cons.
Qed.

(** X1: the cleaned copy is never longer than the stored text, and it
    equals the stored text exactly when the stored text contains neither
    delimiter token. *)
Theorem cleaned_latex_fixed_points (s : string) :
  String.length (cleaned_latex s) <= String.length s
  /\ (cleaned_latex s = s <->
      contains_tok "\[" s = false /\ contains_tok "\]" s = false).
Proof.
  rewrite cleaned_latex_remove2.
  pose proof (remove2_length_le backslash "[" s) as L1.
  pose proof (remove2_length_le backslash "]" (remove2 backslash "[" s)) as L2.
  split; [lia|]. split.
  - intros Heq.
    destruct (contains_tok "\[" s) eqn:E1.
    { apply (remove2_shorter backslash "[") in E1.
      rewrite Heq in L2. lia. }
    rewrite (remove2_absent backslash "[" s E1) in Heq.
    destruct (contains_tok "\]" s) eqn:E2; [|auto].
    apply (remove2_shorter backslash "]") in E2. rewrite Heq in E2. lia.
  - intros [E1 E2].
    rewrite (remove2_absent backslash "[" s E1).
    apply (remove2_absent backslash "]" s E2).
Qed.

(** X2: a display-math wrapper around any text is stripped: cleaning
    the text enclosed in an opening and a closing delimiter token gives
    what cleaning the text alone gives. *)
Theorem cleaned_latex_unwraps (s : string) :
  cleaned_latex ("\[" +:+ s +:+ "\]") = cleaned_latex s.
Proof.
  rewrite !cleaned_latex_remove2.
  change ("\[" +:+ s +:+ "\]")
    with (String backslash (String "["%char (s +:+ "\]"))).
  rewrite remove2_cons2, !Ascii.eqb_refl. cbn [andb].
  rewrite (remove2_app backslash "[" s "\]") by discriminate.
  change (remove2 backslash "[" "\]") with "\]".
  rewrite (remove2_app backslash "]" _ "\]") by discriminate.
  change (remove2 backslash "]" "\]") with "".
  apply append_empty_r.
Qed.

(** ** The further properties on concrete inputs *)

Section MoreScenarios.

Import Toy.

Abbreviation toy_main :=
  (main Toy.Image_open Toy.Image_save_png Toy.Image_repr).

Lemma cleaned_latex_fixed_points_witness :
  contains_tok "\[" "x+1=2" = false
  /\ contains_tok "\]" "x+1=2" = false
  /\ cleaned_latex "x+1=2" = "x+1=2".
Proof.
  split; [reflexivity|]. split; [reflexivity|].
  apply (proj2 (cleaned_latex_fixed_points "x+1=2")). now split.
Defined.

Lemma init_session_state_fills_missing_witness :
  exists ss',
    init_session_state (start (<["ocr_result" := VStr "x+1=2"]> ∅
                               : gmap string (Value Toy.Image)))
    = (Ret tt, {| session := ss'; calls := []; ui := [] |})
    /\ ss' !! "ocr_result" = Some (VStr "x+1=2")
    /\ ss' !! "uploaded_image" = Some VNone.
Proof.
  destruct (init_session_state_fills_missing
              (start (<["ocr_result" := VStr "x+1=2"]> ∅
                      : gmap string (Value Toy.Image))))
    as (ss' & Heq & Hkeep & Hfill & _).
  exists ss'. split; [exact Heq|]. split.
  - apply Hkeep. reflexivity.
  - rewrite (Hfill "uploaded_image"); reflexivity.
Defined.

Lemma run_touches_only_its_attributes_witness :
  ("theme" ∉ attributes)
  /\ run Toy.Image_open Toy.Image_save_png Toy.Image_repr env_clear
       (<["theme" := VStr "dark"]> solved_session) !! "theme"
     = Some (VStr "dark").
Proof.
  assert (Hname : "theme" ∉ attributes).
  { unfold attributes. rewrite !elem_of_cons, elem_of_nil.
    intros [|[|[|[]]]]; discriminate. }
  split; [exact Hname|].
  rewrite (run_touches_only_its_attributes Toy.Image_open Toy.Image_save_png
             Toy.Image_repr env_clear _ "theme" Hname).
  reflexivity.
Defined.

Lemma attributes_change_only_by_their_widget_witness :
  clear_clicked env_solve = false
  /\ extract_clicked env_solve = false
  /\ extracted_session !! "ocr_result" = Some (VStr "x+1=2")
  /\ run Toy.Image_open Toy.Image_save_png Toy.Image_repr env_solve
       extracted_session !! "ocr_result" = Some (VStr "x+1=2").
Proof.
  do 3 (split; [reflexivity|]).
  apply (proj1 (proj2 (attributes_change_only_by_their_widget
                         Toy.Image_open Toy.Image_save_png Toy.Image_repr
                         env_solve extracted_session (VStr "x+1=2")
                         eq_refl)));
    reflexivity.
Defined.

Lemma run_sends_at_most_two_requests_witness :
  extract_clicked env_upload = false
  /\ solve_clicked env_upload = false
  /\ calls (snd (toy_main env_upload (start solved_session))) = [].
Proof.
  do 2 (split; [reflexivity|]).
  apply (proj2 (run_sends_at_most_two_requests Toy.Image_open
                  Toy.Image_save_png Toy.Image_repr env_upload
                  (start solved_session)));
    reflexivity.
Defined.

Lemma reachable_well_typed_witness :
  reachable Toy.Image_open Toy.Image_save_png Toy.Image_repr
    (run Toy.Image_open Toy.Image_save_png Toy.Image_repr env_extract ∅)
  /\ well_typed
       (run Toy.Image_open Toy.Image_save_png Toy.Image_repr env_extract ∅)
     = true.
Proof.
  split.
  - apply reach_run, reach_init.
  - apply (reachable_well_typed Toy.Image_open Toy.Image_save_png
             Toy.Image_repr).
    apply reach_run, reach_init.
Defined.


Lemma clear_ends_the_run_witness :
  clear_clicked (env0 true (Some jpg_file) true true
                      (ChatContent "y=3") (ChatContent "x=1")) = true
  /\ calls (snd (toy_main (env0 true (Some jpg_file) true true
                             (ChatContent "y=3") (ChatContent "x=1"))
                   (start solved_session))) = [].
Proof.
  split; [reflexivity|].
  now rewrite (clear_ends_the_run Toy.Image_open Toy.Image_save_png
                 Toy.Image_repr
                 (env0 true (Some jpg_file) true true
                       (ChatContent "y=3") (ChatContent "x=1"))
                 solved_session eq_refl).
Defined.

Lemma undecodable_upload_stops_the_run_witness :
  clear_clicked (env0 false (Some [Byte.x03]) true true
                      (ChatContent "y=3") (ChatContent "x=1")) = false
  /\ uploaded_file (env0 false (Some [Byte.x03]) true true
                         (ChatContent "y=3") (ChatContent "x=1"))
     = Some [Byte.x03]
  /\ Toy.Image_open [Byte.x03] = None
  /\ fst (toy_main (env0 false (Some [Byte.x03]) true true
                      (ChatContent "y=3") (ChatContent "x=1"))
            (start solved_session)) = Raise ImageOpenError.
Proof.
  do 3 (split; [reflexivity|]).
  apply (undecodable_upload_stops_the_run Toy.Image_open Toy.Image_save_png
           Toy.Image_repr
           (env0 false (Some [Byte.x03]) true true
                 (ChatContent "y=3") (ChatContent "x=1"))
           solved_session [Byte.x03]); reflexivity.
Defined.

Lemma failed_inference_run_is_noop_witness :
  initialised solved_session = true
  /\ clear_clicked env_failing = false
  /\ uploaded_file env_failing = None
  /\ (forall n req, falsy_reply (backend env_failing n req) = true)
  /\ run Toy.Image_open Toy.Image_save_png Toy.Image_repr env_failing
       solved_session = solved_session.
Proof.
  assert (Hfalsy : forall n req,
            falsy_reply (backend env_failing n req) = true).
  { intros n req. cbn [backend env_failing env0]. unfold answers.
    now destruct (String.eqb (model req) VISION_MODEL). }
  do 3 (split; [reflexivity|]). split; [exact Hfalsy|].
  apply (failed_inference_run_is_noop Toy.Image_open Toy.Image_save_png
           Toy.Image_repr env_failing solved_session);
    try reflexivity. exact Hfalsy.
Defined.

Lemma extract_then_solve_witness :
  initialised loaded_session = true
  /\ loaded_session !! "uploaded_image" = Some (VImage [Byte.x0a; Byte.x0b])
  /\ backend env_reextract 0 (vision_request [Byte.x01; Byte.x0a; Byte.x0b])
     = ChatContent "y=3"
  /\ backend env_solve 0 (math_request Toy.Image_repr (VStr "y=3"))
     = ChatContent "x=1"
  /\ phase_of (run Toy.Image_open Toy.Image_save_png Toy.Image_repr env_solve
                 (run Toy.Image_open Toy.Image_save_png Toy.Image_repr
                    env_reextract loaded_session)) = Solved.
Proof.
  do 4 (split; [reflexivity|]).
  apply (extract_then_solve Toy.Image_open Toy.Image_save_png Toy.Image_repr
           env_reextract env_solve loaded_session
           [Byte.x0a; Byte.x0b] [Byte.x01; Byte.x0a; Byte.x0b] "y=3" "x=1");
    try reflexivity; discriminate.
Defined.

Lemma display_results_renders_witness :
  session (start loaded_session) !! "ocr_result" = Some VNone
  /\ truthy (VNone : Value Toy.Image) = false
  /\ display_results (start loaded_session)
     = (Ret tt,
        {| session := loaded_session; calls := [];
           ui := [UiInfo "Upload an image and click 'Extract LaTeX code' to see the results."] |}).
Proof.
  do 2 (split; [reflexivity|]).
  apply (proj1 (display_results_renders (start loaded_session)) VNone);
    reflexivity.
Defined.

Lemma upload_and_extract_witness :
  uploaded_file env_extract = Some jpg_file
  /\ Toy.Image_open jpg_file = Some [Byte.x0a; Byte.x0b]
  /\ backend env_extract 0 (vision_request [Byte.x01; Byte.x0a; Byte.x0b])
     = ChatContent "x+1=2"
  /\ phase_of (run Toy.Image_open Toy.Image_save_png Toy.Image_repr
                 env_extract solved_session) = Extracted.
Proof.
  do 3 (split; [reflexivity|]).
  apply (upload_and_extract Toy.Image_open Toy.Image_save_png Toy.Image_repr
           env_extract solved_session jpg_file
           [Byte.x0a; Byte.x0b] [Byte.x01; Byte.x0a; Byte.x0b] "x+1=2");
    try reflexivity; discriminate.
Defined.

End MoreScenarios.
